(** * dl4spl2: the tuning script [pytorch.py]

    A shallow embedding of the script: plain Python data and the builtins the
    script applies to it, the calls it makes into pandas, scikit-learn, torch,
    Lightning and Ray Tune (each library call is a definition of its own, named
    after the call, that records the arguments it is given and performs the
    argument checks the library performs), and the script's own classes and
    functions under their source names. *)

From stdpp Require Import gmap strings list.
From Stdlib Require Import ZArith QArith Qround Permutation.

Local Open Scope Z_scope.
Local Open Scope string_scope.

(** ** Plain Python data *)

(** Integers, strings, lists and dicts with string keys. A dict keeps the
    insertion order of its keys, which is the order iteration follows. *)
#[warnings="-register-all"]
Inductive PyValue : Type :=
| PyInt (z : Z)
| PyStr (s : string)
| PyList (l : list PyValue)
| PyDict (d : list (string * PyValue)).

Inductive PyError : Type :=
| KeyError (key : PyValue)
| TypeError
| ValueError
| IndexError
| AssertionError
| RuntimeError
| MisconfigurationException.

(** A computation that returns or raises. *)
Inductive result (A : Type) : Type :=
| Ok (a : A)
| Raise (e : PyError).
Arguments Ok {A} a.
Arguments Raise {A} e.

#[global] Instance result_ret : MRet result := fun _ a => Ok a.
#[global] Instance result_bind : MBind result := fun _ _ f m =>
  match m with
  | Ok a => f a
  | Raise e => Raise e
  end.

Definition raises {A} (m : result A) : Prop := exists e, m = Raise e.

(** [assert cond] *)
Definition py_assert (cond : result bool) : result unit :=
  b ← cond; if b : bool then Ok tt else Raise AssertionError.

(** *** Comparison *)

Definition assoc {V} (k : string) (d : list (string * V)) : option V :=
  snd <$> List.find (fun kv => String.eqb k (fst kv)) d.

(** [a == b]: by value; two dicts are equal when they hold the same items,
    in whatever order. *)
Fixpoint py_eqb (a b : PyValue) {struct a} : bool :=
  match a, b with
  | PyInt x, PyInt y => Z.eqb x y
  | PyStr s, PyStr t => String.eqb s t
  | PyList l, PyList m =>
      (fix go (l m : list PyValue) {struct l} : bool :=
         match l, m with
         | [], [] => true
         | x :: l', y :: m' => py_eqb x y && go l' m'
         | _, _ => false
         end) l m
  | PyDict d, PyDict e =>
      Nat.eqb (length d) (length e) &&
      (fix all (d : list (string * PyValue)) : bool :=
         match d with
         | [] => true
         | (k, v) :: d' =>
             match assoc k e with
             | Some w => py_eqb v w && all d'
             | None => false
             end
         end) d
  | _, _ => false
  end.

(** [a < b]: integers by value, strings by code points, lists by their first
    differing position; any other pairing is not ordered. *)
Fixpoint py_lt (a b : PyValue) {struct a} : result bool :=
  match a, b with
  | PyInt x, PyInt y => Ok (Z.ltb x y)
  | PyStr s, PyStr t => Ok (String.ltb s t)
  | PyList l, PyList m =>
      (fix go (l m : list PyValue) {struct l} : result bool :=
         match l, m with
         | [], [] => Ok false
         | [], _ :: _ => Ok true
         | _ :: _, [] => Ok false
         | x :: l', y :: m' => if py_eqb x y then go l' m' else py_lt x y
         end) l m
  | _, _ => Raise TypeError
  end.

(** [a > b] and [a >= b] on these totally ordered values. *)
Definition py_gt (a b : PyValue) : result bool := py_lt b a.

Definition py_ge (a b : PyValue) : result bool :=
  r ← py_lt a b; Ok (negb r).

(** *** Iteration, [max] and [min] *)

(** [iter(v)]: a list yields its items, a dict its keys, a string its
    characters; an integer is not iterable. *)
Definition py_iter (v : PyValue) : result (list PyValue) :=
  match v with
  | PyList l => Ok l
  | PyDict d => Ok ((fun kv => PyStr (fst kv)) <$> d)
  | PyStr s => Ok ((fun c => PyStr (String c EmptyString)) <$> String.list_ascii_of_string s)
  | PyInt _ => Raise TypeError
  end.

(** The loop of [max]: keep the first item, replace it by each later item
    that compares greater. *)
Fixpoint max_loop (best : PyValue) (items : list PyValue) : result PyValue :=
  match items with
  | [] => Ok best
  | item :: rest =>
      b ← py_gt item best;
      max_loop (if b : bool then item else best) rest
  end.

Fixpoint min_loop (best : PyValue) (items : list PyValue) : result PyValue :=
  match items with
  | [] => Ok best
  | item :: rest =>
      b ← py_lt item best;
      min_loop (if b : bool then item else best) rest
  end.

Definition py_max (v : PyValue) : result PyValue :=
  items ← py_iter v;
  match items with
  | [] => Raise ValueError
  | first :: rest => max_loop first rest
  end.

Definition py_min (v : PyValue) : result PyValue :=
  items ← py_iter v;
  match items with
  | [] => Raise ValueError
  | first :: rest => min_loop first rest
  end.

(** *** Lookup tables *)

(** [table[key]] for a dict literal with string keys: a key that is not in
    the table raises [KeyError]; a list or a dict cannot be hashed. *)
Definition getitem {V} (table : gmap string V) (key : PyValue) : result V :=
  match key with
  | PyStr s =>
      match table !! s with
      | Some v => Ok v
      | None => Raise (KeyError key)
      end
  | PyInt _ => Raise (KeyError key)
  | PyList _ | PyDict _ => Raise TypeError
  end.

(** [n // 2] on Python integers rounds towards minus infinity, as [Z.div]
    does for a positive divisor. *)
Definition floordiv (a b : Z) : Z := a / b.

(** ** torch.nn and torch.optim *)

(** The modules the script instantiates, by constructor arguments. *)
Inductive Module : Type :=
| Linear (in_features out_features : Z)
| ReLU
| PReLU
| ELU
| Dropout (p : Q).

(** [nn.Sequential(...)] *)
Definition Sequential : Type := list Module.

Inductive Loss : Type :=
| MSELoss
| SmoothL1Loss
| L1Loss.

(** An optimizer, the parameters it is bound to and its learning rate. *)
Inductive Optimizer : Type :=
| Adam (params : Sequential) (lr : Q)
| AdamW (params : Sequential) (lr : Q).

(** [nn.Linear(in_features, out_features)]: the constructor allocates a
    weight of [out_features] by [in_features] entries and a bias of
    [out_features] entries, which a negative size makes impossible; a size
    of 0 is accepted. *)
Definition Linear_init (in_features out_features : Z) : result Module :=
  if Z.ltb in_features 0 || Z.ltb out_features 0 then Raise RuntimeError
  else Ok (Linear in_features out_features).

(** Whether [parameters()] of a module yields anything: a linear layer has
    its weight and bias, PReLU its slope; ReLU, ELU and dropout have
    none. *)
Definition has_parameters (ms : Sequential) : bool :=
  existsb (fun m => match m with
                    | Linear _ _ | PReLU => true
                    | ReLU | ELU | Dropout _ => false
                    end) ms.

(** [torch.optim.Adam(params, lr=...)] and [torch.optim.AdamW(params,
    lr=...)]: a negative learning rate and an empty parameter list are
    refused. *)
Definition Adam_init (params : Sequential) (lr : Q) : result Optimizer :=
  if negb (Qle_bool 0 lr) then Raise ValueError
  else if has_parameters params then Ok (Adam params lr)
  else Raise ValueError.

Definition AdamW_init (params : Sequential) (lr : Q) : result Optimizer :=
  if negb (Qle_bool 0 lr) then Raise ValueError
  else if has_parameters params then Ok (AdamW params lr)
  else Raise ValueError.

(** What a module does to the size of the last dimension of its input: a
    linear layer accepts [in_features] values and produces [out_features]; an
    activation or a dropout works element by element. *)
Definition Module_shape (m : Module) (d : Z) : result Z :=
  match m with
  | Linear i o => if Z.eqb d i then Ok o else Raise RuntimeError
  | ReLU | PReLU | ELU | Dropout _ => Ok d
  end.

(** [Sequential.forward] on sizes: the modules are applied in order. *)
Fixpoint Sequential_shape (ms : Sequential) (d : Z) : result Z :=
  match ms with
  | [] => Ok d
  | m :: ms' => d' ← Module_shape m d; Sequential_shape ms' d'
  end.

(** ** class LightningModel *)

Record LightningModel : Type := {
  num_features : Z;
  activation : PyValue;
  optimizer_name : PyValue;
  loss_name : PyValue;
  model : Sequential
}.

(** [self.parameters()]: the parameters of the layers in [self.model]. *)
Definition parameters (self : LightningModel) : Sequential := model self.

(** The dict literal constructs both optimizers, in this order, before the
    name is looked up. *)
Definition get_optimizer (self : LightningModel) : result Optimizer :=
  adam ← Adam_init (parameters self) (1 # 1000);
  adamw ← AdamW_init (parameters self) (1 # 1000);
  let optimizers : gmap string Optimizer :=
    {[ "Adam" := adam;
       "AdamW" := adamw ]} in
  getitem optimizers (optimizer_name self).

Definition get_loss_function (self : LightningModel) : result Loss :=
  let loss_functions : gmap string Loss :=
    {[ "MSE" := MSELoss;
       "SmoothL1Loss" := SmoothL1Loss;
       "MAE" := L1Loss ]} in
  getitem loss_functions (loss_name self).

Definition get_activation (self : LightningModel) : result Module :=
  let activations : gmap string Module :=
    {[ "ReLU" := ReLU;
       "PReLU" := PReLU;
       "ELU" := ELU ]} in
  getitem activations (activation self).

(** The arguments of [nn.Sequential] are evaluated from left to right: the
    first linear layer is constructed before the activation is looked
    up. *)
Definition build_model (self : LightningModel) : result Sequential :=
  let hidden_size := floordiv (num_features self) 2 in
  let hidden_size2 := floordiv hidden_size 2 in
  linear1 ← Linear_init (num_features self) hidden_size;
  act1 ← get_activation self;
  let dropout1 := Dropout (3 # 10) in
  linear2 ← Linear_init hidden_size hidden_size2;
  act2 ← get_activation self;
  let dropout2 := Dropout (3 # 10) in
  linear3 ← Linear_init hidden_size2 1;
  Ok [ linear1; act1; dropout1; linear2; act2; dropout2; linear3 ].

(** [self.model = m] *)
Definition set_model (self : LightningModel) (m : Sequential) : LightningModel :=
  {| num_features := num_features self;
     activation := activation self;
     optimizer_name := optimizer_name self;
     loss_name := loss_name self;
     model := m |}.

(** [LightningModel.__init__]: the four attributes are assigned first, then
    [self.model = self.build_model()]. A keyword argument that the caller
    omits is [None] here and takes the default of the signature. *)
Definition LightningModel_init (num_features : Z)
    (activation optimizer_name loss_name : option PyValue) : result LightningModel :=
  let self := {| num_features := num_features;
                 activation := default (PyStr "ReLU") activation;
                 optimizer_name := default (PyStr "Adam") optimizer_name;
                 loss_name := default (PyStr "MSE") loss_name;
                 model := [] |} in
  m ← build_model self;
  Ok (set_model self m).

(** [forward], on sizes: [self.model(x)] for an input whose last dimension
    has [d] entries. *)
Definition forward (self : LightningModel) (d : Z) : result Z :=
  Sequential_shape (model self) d.

(** [configure_optimizers] *)
Definition configure_optimizers (self : LightningModel) : result Optimizer :=
  get_optimizer self.

(** ** pandas *)

(** A frame of numeric cells: the column names and the rows, each row holding
    one cell per column. Python floats are kept as the rationals their
    literals and values denote. *)
Record DataFrame : Type := {
  columns : list string;
  rows : list (list Q)
}.

(** [a[i] for i in indices], raising on an index out of range. *)
Definition take_rows {A} (a : list A) (indices : list nat) : result (list A) :=
  match mapM (fun i => a !! i) indices with
  | Some r => Ok r
  | None => Raise IndexError
  end.

(** [df.astype('float32')] keeps the columns and the number of rows. Cells
    stay the rationals they are: the rounding of a value to single
    precision is not followed, and nothing below depends on the value of a
    cell. *)
Definition astype_float32 (df : DataFrame) : DataFrame := df.

(** [df.sample(n)]: [n] rows drawn without replacement, which needs at least
    [n] rows; [draw] are the positions the random generator picks. *)
Definition DataFrame_sample (df : DataFrame) (n : nat) (draw : list nat) : result DataFrame :=
  if Nat.leb n (length (rows df)) then
    r ← take_rows (rows df) draw;
    Ok {| columns := columns df; rows := r |}
  else Raise ValueError.

(** Position of a column name. *)
Fixpoint column_index (name : string) (cols : list string) : option nat :=
  match cols with
  | [] => None
  | c :: cols' => if String.eqb name c then Some O else S <$> column_index name cols'
  end.

(** [df[name]]: the column as a series of cells; a name that is not a
    column raises [KeyError]. *)
Definition DataFrame_getitem (df : DataFrame) (name : string) : result (list Q) :=
  match column_index name (columns df) with
  | Some i => Ok ((fun r => nth i r 0%Q) <$> rows df)
  | None => Raise (KeyError (PyStr name))
  end.

(** [df.drop(columns=[name])] *)
Definition DataFrame_drop (df : DataFrame) (name : string) : result DataFrame :=
  match column_index name (columns df) with
  | Some i => Ok {| columns := delete i (columns df);
                    rows := (fun r => delete i r) <$> rows df |}
  | None => Raise (KeyError (PyStr name))
  end.

(** [X.shape[1]] *)
Definition shape1 (df : DataFrame) : Z := Z.of_nat (length (columns df)).

(** ** scikit-learn: train_test_split *)

Section Split.

(** [RandomState(seed).permutation(n)]: the shuffled positions [0..n-1]
    that the generator seeded with [seed] produces. *)
Variable permutation : Z -> nat -> list nat.

(** The sizes of the two parts for a fractional [test_size]: the test part
    takes [ceil(test_size * n_samples)] rows and the train part the rest;
    an empty train part is refused. *)
Definition validate_shuffle_split (n_samples : nat) (test_size : Q) : result (nat * nat) :=
  if Qle_bool test_size 0 || Qle_bool 1 test_size then Raise ValueError
  else
    let n_test := Z.to_nat (Qceiling (test_size * inject_Z (Z.of_nat n_samples))) in
    let n_train := (n_samples - n_test)%nat in
    if Nat.eqb n_train 0 then Raise ValueError else Ok (n_train, n_test).

(** The positions of the train and of the test rows: the first [n_test]
    entries of the permutation are the test rows, the next [n_train] the
    train rows. *)
Definition split_indices (n_samples : nat) (test_size : Q) (random_state : Z)
    : result (list nat * list nat) :=
  '(n_train, n_test) ← validate_shuffle_split n_samples test_size;
  let p := permutation random_state n_samples in
  let ind_test := take n_test p in
  let ind_train := take n_train (drop n_test p) in
  Ok (ind_train, ind_test).

(** [train_test_split(X, y, test_size=..., random_state=...)] returns
    [X_train, X_test, y_train, y_test]. *)
Definition train_test_split {A B} (X : list A) (y : list B) (test_size : Q)
    (random_state : Z) : result (list A * list A * list B * list B) :=
  if negb (Nat.eqb (length y) (length X)) then Raise ValueError
  else
    '(ind_train, ind_test) ← split_indices (length X) test_size random_state;
    X_train ← take_rows X ind_train;
    X_test ← take_rows X ind_test;
    y_train ← take_rows y ind_train;
    y_test ← take_rows y ind_test;
    Ok (X_train, X_test, y_train, y_test).

End Split.

(** ** torch.utils.data *)

(** [class CustomDataset] *)
Record CustomDataset : Type := {
  features : list (list Q);
  labels : list Q
}.

(** [__len__] *)
Definition CustomDataset_len (self : CustomDataset) : nat := length (features self).

(** [__getitem__] *)
Definition CustomDataset_getitem (self : CustomDataset) (idx : nat) : result (list Q * Q) :=
  match features self !! idx, labels self !! idx with
  | Some f, Some l => Ok (f, l)
  | _, _ => Raise IndexError
  end.

(** [DataLoader(dataset, batch_size=..., shuffle=..., num_workers=...)], by
    constructor arguments. What the constructor refuses (a batch size
    below 1, a negative number of workers, shuffling an empty dataset) is
    not part of the record: the properties of a pass state what they need
    of the loader. *)
Record DataLoader : Type := {
  dataset : CustomDataset;
  batch_size : nat;
  shuffle : bool;
  num_workers : Z
}.

(** The sampler: the positions in order, or the shuffled positions [draw]
    that the random sampler produces for this pass. *)
Definition sampler (dl : DataLoader) (draw : list nat) : list nat :=
  if shuffle dl then draw else seq 0 (CustomDataset_len (dataset dl)).

(** The batch sampler ([drop_last] is left at [False]): positions are
    appended to the current batch, a batch that reaches [batch_size] is
    yielded, and what remains at the end is yielded when it is not empty. *)
Fixpoint BatchSampler (batch_size : nat) (indices : list nat) (batch : list nat)
    : list (list nat) :=
  match indices with
  | [] => match batch with [] => [] | _ :: _ => [batch] end
  | idx :: rest =>
      let batch := (batch ++ [idx])%list in
      if Nat.eqb (length batch) batch_size then batch :: BatchSampler batch_size rest []
      else BatchSampler batch_size rest batch
  end.

(** The positions of each batch of one pass over the loader. *)
Definition batch_indices (dl : DataLoader) (draw : list nat) : list (list nat) :=
  BatchSampler (batch_size dl) (sampler dl draw) [].

(** One pass over the loader: each batch fetches its samples from the
    dataset. *)
Definition DataLoader_iter (dl : DataLoader) (draw : list nat)
    : result (list (list (list Q * Q))) :=
  mapM (M := result) (fun b => mapM (M := result) (CustomDataset_getitem (dataset dl)) b)
       (batch_indices dl draw).

(** ** Lightning *)

(** [ModelCheckpoint(...)], by constructor arguments; [monitor] is [None]
    when the caller does not pass it. *)
Record ModelCheckpoint : Type := {
  dirpath : string;
  filename : string;
  monitor : option string;
  save_top_k : Z;
  verbose : bool;
  every_n_epochs : Z
}.

(** The constructor checks its configuration: without a monitored quantity
    there is nothing to rank checkpoints by, and [save_top_k] may only be
    [-1] (keep all), [0] (keep none) or [1] (keep the last). *)
Definition ModelCheckpoint_init (dirpath filename : string) (monitor : option string)
    (save_top_k : Z) (verbose : bool) (every_n_epochs : Z) : result ModelCheckpoint :=
  if Z.ltb save_top_k (-1) then Raise MisconfigurationException
  else if Z.ltb every_n_epochs 0 then Raise MisconfigurationException
  else
    match monitor with
    | None =>
        if Z.eqb save_top_k (-1) || Z.eqb save_top_k 0 || Z.eqb save_top_k 1 then
          Ok {| dirpath := dirpath; filename := filename; monitor := None;
                save_top_k := save_top_k; verbose := verbose;
                every_n_epochs := every_n_epochs |}
        else Raise MisconfigurationException
    | Some q =>
        Ok {| dirpath := dirpath; filename := filename; monitor := Some q;
              save_top_k := save_top_k; verbose := verbose;
              every_n_epochs := every_n_epochs |}
    end.

Inductive Callback : Type :=
| TuneReportCheckpointCallback (metrics : list (string * string)) (on : string)
| CheckpointCallback (c : ModelCheckpoint).

(** [L.Trainer(...)] *)
Record Trainer : Type := {
  max_epochs : Z;
  accelerator : string;
  devices : string;
  callbacks : list Callback;
  enable_progress_bar : bool
}.

(** The call [trainer.fit(model, train_dataloader, val_dataloader)]. *)
Record TrainerFit : Type := {
  fit_trainer : Trainer;
  fit_model : LightningModel;
  fit_train : DataLoader;
  fit_val : DataLoader
}.

(** ** Ray Tune *)

(** A trial configuration: hyperparameter name to sampled value. *)
Abbreviation Config := (gmap string PyValue).

(** An entry of the search space: the categorical domain object that
    [tune.choice] builds, or plain data. *)
Inductive SpaceEntry : Type :=
| Categorical (categories : list PyValue)
| Plain (v : PyValue).

(** [tune.choice(categories)] *)
Definition tune_choice (categories : list PyValue) : SpaceEntry :=
  Categorical categories.

(** [tune.grid_search(values)] is the marker dict [{"grid_search": values}]. *)
Definition tune_grid_search (values : list PyValue) : SpaceEntry :=
  Plain (PyDict [("grid_search", PyList values)]).

(** [max(entry)] and [min(entry)]: a categorical domain is a sequence of its
    categories, plain data iterates as plain data does. *)
Definition entry_max (e : SpaceEntry) : result PyValue :=
  match e with
  | Categorical cs => py_max (PyList cs)
  | Plain v => py_max v
  end.

Definition entry_min (e : SpaceEntry) : result PyValue :=
  match e with
  | Categorical cs => py_min (PyList cs)
  | Plain v => py_min v
  end.

(** [d[key]] for a dict indexed by a string constant. *)
Definition lookup_key {V} (d : gmap string V) (key : string) : result V :=
  getitem d (PyStr key).

(** [OptunaSearch(metric=..., mode=...)] *)
Record OptunaSearch : Type := {
  search_metric : string;
  search_mode : string
}.

(** [ASHAScheduler(...)], by constructor arguments. *)
Record ASHAScheduler : Type := {
  time_attr : string;
  max_t : PyValue;
  grace_period : PyValue;
  reduction_factor : PyValue
}.

(** The constructor asserts [max_t > 0], [max_t >= grace_period],
    [grace_period > 0] and [reduction_factor > 1], in this order. *)
Definition ASHAScheduler_init (time_attr : string) (max_t grace_period reduction_factor : PyValue)
    : result ASHAScheduler :=
  py_assert (py_gt max_t (PyInt 0));;
  py_assert (py_ge max_t grace_period);;
  py_assert (py_gt grace_period (PyInt 0));;
  py_assert (py_gt reduction_factor (PyInt 1));;
  Ok {| time_attr := time_attr; max_t := max_t; grace_period := grace_period;
        reduction_factor := reduction_factor |}.

(** [tune.TuneConfig(...)] *)
Record TuneConfig : Type := {
  metric : string;
  mode : string;
  search_alg : OptunaSearch;
  scheduler : ASHAScheduler;
  num_samples : Z
}.

(** [tune.Tuner(trainable, tune_config=..., param_space=...)] *)
Record Tuner : Type := {
  trainable : Config -> result TrainerFit;
  tune_config : TuneConfig;
  param_space : gmap string SpaceEntry
}.

(** One entry of the result grid: a trial's configuration and the metrics
    it reported last. *)
Record Result : Type := {
  Result_config : Config;
  Result_metrics : gmap string Q
}.

(** The entry with the least (or greatest) value of [metric] among those
    seen so far; on a tie the earlier entry stays. *)
Fixpoint best_of (metric : string) (minimise : bool) (best : Result * Q)
    (results : list Result) : Result :=
  match results with
  | [] => fst best
  | r :: rest =>
      match Result_metrics r !! metric with
      | Some v =>
          let better := if minimise then negb (Qle_bool (snd best) v)
                        else negb (Qle_bool v (snd best)) in
          best_of metric minimise (if better then (r, v) else best) rest
      | None => best_of metric minimise best rest
      end
  end.

(** [get_best_trial]: entries that did not report the metric are left out;
    with no entry left there is no best trial. *)
Fixpoint get_best_trial (results : list Result) (metric : string) (minimise : bool)
    : option Result :=
  match results with
  | [] => None
  | r :: rest =>
      match Result_metrics r !! metric with
      | Some v => Some (best_of metric minimise (r, v) rest)
      | None => get_best_trial rest metric minimise
      end
  end.

(** [results.get_best_result(metric=..., mode=...)]: the only entry of a
    grid of one is returned as it is, whatever it reported; otherwise the
    mode is checked and the best trial is searched, and it raises when
    there is none. *)
Definition get_best_result (results : list Result) (metric mode : string) : result Result :=
  match results with
  | [r] => Ok r
  | _ =>
      if negb (String.eqb mode "min" || String.eqb mode "max") then Raise ValueError
      else
        match get_best_trial results metric (String.eqb mode "min") with
        | Some best => Ok best
        | None => Raise RuntimeError
        end
  end.

(** ** The script *)

Section Script.

(** What the environment supplies: the shuffling generator of
    scikit-learn, the number of CPU cores, whether standard output is a
    terminal, and Ray's run of the trials, which turns a tuner into its
    result grid. *)
Variable permutation : Z -> nat -> list nat.
Variable cpu_count : Z.
Variable isatty : bool.
Variable Tuner_fit : Tuner -> list Result.

(** What the module-level code leaves behind for [__main__]. *)
Record Prepared : Type := {
  X : DataFrame;
  train_dataloader : DataLoader;
  test_dataloader : DataLoader
}.

(** Lines 34 to 73: load, cast, subsample, separate the target, split,
    wrap into datasets and loaders. [parquet] is what reading
    [data.parquet] gives, [draw] the rows the subsample picks. *)
Definition prepare (parquet : result DataFrame) (draw : list nat) : result Prepared :=
  df ← parquet;
  let df := astype_float32 df in
  df ← DataFrame_sample df 1500 draw;
  let target_column := "perf" in
  y ← DataFrame_getitem df target_column;
  X ← DataFrame_drop df target_column;
  '(X_train, X_test, y_train, y_test) ←
    train_test_split permutation (rows X) y (2 # 10) 42;
  let train_dataset := {| features := X_train; labels := y_train |} in
  let test_dataset := {| features := X_test; labels := y_test |} in
  let num_workers := Z.min 8 cpu_count in
  let train_dataloader :=
    {| dataset := train_dataset; batch_size := 1024; shuffle := true;
       num_workers := num_workers |} in
  let test_dataloader :=
    {| dataset := test_dataset; batch_size := 1024; shuffle := false;
       num_workers := num_workers |} in
  Ok {| X := X; train_dataloader := train_dataloader;
        test_dataloader := test_dataloader |}.

(** The body of [train_model_tune(config, num_features, train_dataloader,
    val_dataloader, max_epochs=100)]; the result is the call to
    [trainer.fit] it ends with. [ModelCheckpoint_cls] is what the name
    [ModelCheckpoint], which the script imports from Lightning, is bound
    to: the body is written over it, so that what the function does after
    the call can be stated whatever the class answers. *)
Definition train_model_tune_with
    (ModelCheckpoint_cls :
       string -> string -> option string -> Z -> bool -> Z -> result ModelCheckpoint)
    (config : Config) (num_features : Z)
    (train_dataloader val_dataloader : DataLoader) (max_epochs : option Z)
    : result TrainerFit :=
  let max_epochs := default 100 max_epochs in
  activation ← lookup_key config "activation";
  optimizer ← lookup_key config "optimizer";
  loss_function ← lookup_key config "loss_function";
  model ← LightningModel_init num_features
             (Some activation) (Some optimizer) (Some loss_function);
  let metrics := [("loss", "val_loss")] in
  checkpoint_callback ←
    ModelCheckpoint_cls "checkpoints" "epoch-{epoch:02d}-val_loss-{val_loss:.2f}"
      None 5 true 1;
  let callbacks := [TuneReportCheckpointCallback metrics "validation_end";
                    CheckpointCallback checkpoint_callback] in
  let is_headless := negb isatty in
  let trainer := {| max_epochs := max_epochs; accelerator := "auto";
                    devices := "auto"; callbacks := callbacks;
                    enable_progress_bar := negb is_headless |} in
  Ok {| fit_trainer := trainer; fit_model := model;
        fit_train := train_dataloader; fit_val := val_dataloader |}.

(** [train_model_tune] as the script runs it, with Lightning's class. *)
Definition train_model_tune (config : Config) (num_features : Z)
    (train_dataloader val_dataloader : DataLoader) (max_epochs : option Z)
    : result TrainerFit :=
  train_model_tune_with ModelCheckpoint_init config num_features
    train_dataloader val_dataloader max_epochs.

(** The search space of [tune_hyperparameters]. *)
Definition search_space : gmap string SpaceEntry :=
  {[ "optimizer" := tune_choice [PyStr "Adam"; PyStr "AdamW"];
     "loss_function" := tune_choice [PyStr "MAE"; PyStr "MSE"; PyStr "SmoothL1Loss"];
     "activation" := tune_choice [PyStr "ReLU"; PyStr "PReLU"; PyStr "ELU"];
     "max_t" := tune_grid_search [PyInt 20; PyInt 30; PyInt 40];
     "grace_period" := tune_grid_search [PyInt 5; PyInt 10; PyInt 15] ]}.

(** The two computed arguments of the scheduler,
    [max(config['max_t'])] and [min(config['grace_period'])]. *)
Definition scheduler_max_t : result PyValue :=
  e ← lookup_key search_space "max_t"; entry_max e.

Definition scheduler_grace_period : result PyValue :=
  e ← lookup_key search_space "grace_period"; entry_min e.

(** [tune_hyperparameters(num_features, train_dataloader, val_dataloader,
    num_samples=10)] *)
Definition tune_hyperparameters (num_features : Z)
    (train_dataloader val_dataloader : DataLoader) (num_samples : option Z)
    : result Config :=
  let num_samples := default 10 num_samples in
  let config := search_space in
  let search_algo := {| search_metric := "loss"; search_mode := "min" |} in
  max_t ← scheduler_max_t;
  grace_period ← scheduler_grace_period;
  scheduler ← ASHAScheduler_init "training_iteration" max_t grace_period (PyInt 2);
  let tuner :=
    {| trainable := fun c =>
         train_model_tune c num_features train_dataloader val_dataloader None;
       tune_config := {| metric := "loss"; mode := "min";
                         search_alg := search_algo; scheduler := scheduler;
                         num_samples := num_samples |};
       param_space := config |} in
  let results := Tuner_fit tuner in
  best_result ← get_best_result results "loss" "min";
  let best_trial_config := Result_config best_result in
  best_trial_loss ← lookup_key (Result_metrics best_result) "loss";
  Ok best_trial_config.

(** The whole run: the module-level preparation, then the [__main__]
    block. *)
Definition main (parquet : result DataFrame) (draw : list nat) : result Config :=
  p ← prepare parquet draw;
  tune_hyperparameters (shape1 (X p)) (train_dataloader p) (test_dataloader p) (Some 18).

End Script.

(** ** The enumerated keys *)

(** The keys of the three lookup tables of [LightningModel]. *)
Definition activation_keys : list string := ["ReLU"; "PReLU"; "ELU"].
Definition optimizer_keys : list string := ["Adam"; "AdamW"].
Definition loss_keys : list string := ["MSE"; "SmoothL1Loss"; "MAE"].

(** The instance each key stands for. *)
Definition activation_table : list (string * Module) :=
  [("ReLU", ReLU); ("PReLU", PReLU); ("ELU", ELU)].
Definition loss_table : list (string * Loss) :=
  [("MSE", MSELoss); ("SmoothL1Loss", SmoothL1Loss); ("MAE", L1Loss)].

(** The layers of the regressor for [n] inputs, widths [h] and [h2] and
    activation [a]. *)
Definition regressor (n h h2 : Z) (a : Module) : Sequential :=
  [ Linear n h; a; Dropout (3 # 10);
    Linear h h2; a; Dropout (3 # 10);
    Linear h2 1 ].

(** A [LightningModel] whose three names are the strings [a], [o] and [l]. *)
Definition named (nf : Z) (a o l : string) (m : Sequential) : LightningModel :=
  {| num_features := nf; activation := PyStr a; optimizer_name := PyStr o;
     loss_name := PyStr l; model := m |}.

(** The sample at position [i] of a dataset, for [i] in range. *)
Definition sample_at (ds : CustomDataset) (i : nat) : list Q * Q :=
  (nth i (features ds) [], nth i (labels ds) 0%Q).

(** [ceil(s / b)] on natural numbers. *)
Definition ceil_div (s b : nat) : nat := ((s + b - 1) / b)%nat.

(** A trial configuration, by its five entries. *)
Definition trial (optimizer loss_function activation : string) (max_t grace_period : Z)
    : Config :=
  {[ "optimizer" := PyStr optimizer;
     "loss_function" := PyStr loss_function;
     "activation" := PyStr activation;
     "max_t" := PyInt max_t;
     "grace_period" := PyInt grace_period ]}.

(** ** The steps of the module, on tensor shapes *)

(** The shape of a tensor: the sizes of its dimensions, outermost first. *)
Definition Shape : Type := list Z.

(** [self(x)] on shapes: the layers act on the last dimension and keep the
    others; a tensor without dimensions is refused. *)
Definition forward_tensor (self : LightningModel) (x : Shape) : result Shape :=
  match last x with
  | None => Raise RuntimeError
  | Some d => d' ← forward self d; Ok (removelast x ++ [d'])%list
  end.

(** [y.unsqueeze(1)]: a dimension of size 1 is inserted at position 1, which
    needs at least one dimension before it. *)
Definition unsqueeze1 (y : Shape) : result Shape :=
  match y with
  | [] => Raise IndexError
  | b :: rest => Ok (b :: 1 :: rest)
  end.

(** Broadcasting of two shapes given innermost dimension first: two sizes
    are compatible when they are equal or one of them is 1, and the longer
    shape supplies the dimensions the shorter one lacks. *)
Fixpoint broadcast_rev (a b : list Z) : result (list Z) :=
  match a, b with
  | [], _ => Ok b
  | _, [] => Ok a
  | x :: a', y :: b' =>
      r ← broadcast_rev a' b';
      if Z.eqb x y then Ok (x :: r)
      else if Z.eqb x 1 then Ok (y :: r)
      else if Z.eqb y 1 then Ok (x :: r)
      else Raise RuntimeError
  end.

(** The shape on which a loss compares its two arguments. *)
Definition broadcast (a b : Shape) : result Shape :=
  r ← broadcast_rev (reverse a) (reverse b); Ok (reverse r).

(** What a step does: the shapes of the prediction and of the target it
    compares, the shape they are compared on, the loss it applies and the
    name it logs the loss under. *)
Record Step : Type := {
  prediction : Shape;
  target : Shape;
  compared : Shape;
  criterion : Loss;
  logged : string
}.

(** [training_step(batch, batch_idx)], for a batch [(x, y)] given by the
    shapes of its two tensors. *)
Definition training_step (self : LightningModel) (batch : Shape * Shape)
    (batch_idx : nat) : result Step :=
  let '(x, y) := batch in
  z ← forward_tensor self x;
  loss_function ← get_loss_function self;
  t ← unsqueeze1 y;
  c ← broadcast z t;
  Ok {| prediction := z; target := t; compared := c;
        criterion := loss_function; logged := "train_loss" |}.

(** [validation_step(batch, batch_idx)] *)
Definition validation_step (self : LightningModel) (batch : Shape * Shape)
    (batch_idx : nat) : result Step :=
  let '(x, y) := batch in
  z ← forward_tensor self x;
  loss_function ← get_loss_function self;
  t ← unsqueeze1 y;
  c ← broadcast z t;
  Ok {| prediction := z; target := t; compared := c;
        criterion := loss_function; logged := "val_loss" |}.

(** A computation that returns. *)
Definition returns {A} (m : result A) : Prop := exists a, m = Ok a.

(** The entries of a frame's row at the positions before and after a
    column, with a cell put back between them. *)
Definition with_cell (i : nat) (cell : Q) (row : list Q) : list Q :=
  (take i row ++ cell :: drop i row)%list.

(** A trial configuration takes its entry [key] from the categories the
    search space offers for it. *)
Definition drawn_from_space (key : string) (c : Config) : Prop :=
  exists cs v, search_space !! key = Some (Categorical cs) /\ c !! key = Some v /\ v ∈ cs.

(** * Properties *)

(** ** Lookup tables *)

Lemma getitem_present {V} (table : gmap string V) (k : string) (v : V) :
  table !! k = Some v -> getitem table (PyStr k) = Ok v.
Proof. intros H. unfold getitem. by rewrite H. Qed.

Lemma getitem_absent {V} (table : gmap string V) (k : string) :
  table !! k = None -> getitem table (PyStr k) = Raise (KeyError (PyStr k)).
Proof. intros H. unfold getitem. by rewrite H. Qed.

Ltac split_keys H :=
  repeat (apply not_elem_of_cons in H; destruct H as [? H]).

Ltac absent_key :=
  apply getitem_absent;
  repeat (rewrite lookup_insert_ne by congruence);
  first [ apply lookup_singleton_ne; congruence | apply lookup_empty ].

Lemma get_activation_unknown (self : LightningModel) (k : string) :
  activation self = PyStr k -> k ∉ activation_keys ->
  get_activation self = Raise (KeyError (PyStr k)).
Proof.
  intros Hk Hn. unfold get_activation. rewrite Hk.
  unfold activation_keys in Hn. split_keys Hn. absent_key.
Qed.

(** On a model that has parameters both optimizers are constructed, and
    [get_optimizer] is the lookup in the table of the two. *)
Lemma get_optimizer_table (self : LightningModel) :
  has_parameters (model self) = true ->
  get_optimizer self =
    getitem ({[ "Adam" := Adam (model self) (1 # 1000);
                "AdamW" := AdamW (model self) (1 # 1000) ]} : gmap string Optimizer)
      (optimizer_name self).
Proof.
  intros Hp. unfold get_optimizer, Adam_init, AdamW_init, parameters.
  rewrite Hp. reflexivity.
Qed.

(** On a model without parameters the first optimizer is refused, whatever
    the name is. *)
Lemma get_optimizer_no_parameters (self : LightningModel) :
  has_parameters (model self) = false -> get_optimizer self = Raise ValueError.
Proof.
  intros Hp. unfold get_optimizer, Adam_init, parameters. rewrite Hp. reflexivity.
Qed.

Lemma get_optimizer_unknown (self : LightningModel) (k : string) :
  has_parameters (model self) = true ->
  optimizer_name self = PyStr k -> k ∉ optimizer_keys ->
  get_optimizer self = Raise (KeyError (PyStr k)).
Proof.
  intros Hp Hk Hn. rewrite (get_optimizer_table self Hp), Hk.
  unfold optimizer_keys in Hn. split_keys Hn. absent_key.
Qed.

Lemma get_loss_function_unknown (self : LightningModel) (k : string) :
  loss_name self = PyStr k -> k ∉ loss_keys ->
  get_loss_function self = Raise (KeyError (PyStr k)).
Proof.
  intros Hk Hn. unfold get_loss_function. rewrite Hk.
  unfold loss_keys in Hn. split_keys Hn. absent_key.
Qed.

Lemma get_activation_known (self : LightningModel) (k : string) :
  activation self = PyStr k -> k ∈ activation_keys ->
  exists a, get_activation self = Ok a /\
    (k, a) ∈ activation_table.
Proof.
  intros Hk Hin. unfold get_activation. rewrite Hk.
  unfold activation_keys in Hin.
  repeat (apply elem_of_cons in Hin; destruct Hin as [-> | Hin]);
    [ exists ReLU | exists PReLU | exists ELU | by apply elem_of_nil in Hin ];
    (split; [ reflexivity | unfold activation_table; set_solver ]).
Qed.

Lemma Linear_init_Ok (i o : Z) :
  0 <= i -> 0 <= o -> Linear_init i o = Ok (Linear i o).
Proof.
  intros Hi Ho. unfold Linear_init.
  destruct (Z.ltb_spec i 0); [ lia | ]. destruct (Z.ltb_spec o 0); [ lia | ].
  reflexivity.
Qed.

Lemma Linear_init_negative (i o : Z) :
  i < 0 -> Linear_init i o = Raise RuntimeError.
Proof.
  intros Hi. unfold Linear_init. destruct (Z.ltb_spec i 0); [ reflexivity | lia ].
Qed.

(** The three linear layers of a model for [n >= 0] features are accepted,
    the two hidden widths being not negative either; what is left of
    [build_model] is the two lookups of the activation. *)
Lemma build_model_layers (self : LightningModel) :
  0 <= num_features self ->
  build_model self =
    (act1 ← get_activation self;
     act2 ← get_activation self;
     Ok [ Linear (num_features self) (num_features self / 2); act1; Dropout (3 # 10);
          Linear (num_features self / 2) (num_features self / 2 / 2); act2;
          Dropout (3 # 10); Linear (num_features self / 2 / 2) 1 ]).
Proof.
  intros Hn. unfold build_model, floordiv.
  assert (0 <= num_features self / 2) as H1 by (Z.div_mod_to_equations; lia).
  assert (0 <= num_features self / 2 / 2) as H2 by (Z.div_mod_to_equations; lia).
  rewrite (Linear_init_Ok _ _ Hn H1), (Linear_init_Ok _ _ H1 H2),
    (Linear_init_Ok _ 1 H2 ltac:(lia)).
  cbn [mbind result_bind].
  destruct (get_activation self); reflexivity.
Qed.

Lemma build_model_known (self : LightningModel) (k : string) :
  0 <= num_features self ->
  activation self = PyStr k -> k ∈ activation_keys ->
  exists a, (k, a) ∈ activation_table /\
    build_model self =
      Ok (regressor (num_features self) (num_features self / 2)
            (num_features self / 2 / 2) a).
Proof.
  intros Hn Hk Hin. destruct (get_activation_known self k Hk Hin) as (a & Ha & Hka).
  exists a. split; [ exact Hka | ].
  rewrite (build_model_layers self Hn), Ha. reflexivity.
Qed.

(** With a known feature count that is not negative, an unknown activation
    is what construction fails on. *)
Lemma build_model_unknown (self : LightningModel) (k : string) :
  0 <= num_features self ->
  activation self = PyStr k -> k ∉ activation_keys ->
  build_model self = Raise (KeyError (PyStr k)).
Proof.
  intros Hn Hk Hin.
  rewrite (build_model_layers self Hn), (get_activation_unknown self k Hk Hin).
  reflexivity.
Qed.

(** A negative feature count is refused by the first linear layer, before
    the activation is looked up. *)
Lemma build_model_negative (self : LightningModel) :
  num_features self < 0 -> build_model self = Raise RuntimeError.
Proof.
  intros Hn. unfold build_model. rewrite (Linear_init_negative _ _ Hn). reflexivity.
Qed.

Lemma regressor_has_parameters (n h h2 : Z) (a : Module) :
  has_parameters (regressor n h h2 a) = true.
Proof. reflexivity. Qed.

Lemma regressor_shape (n h h2 : Z) (a : Module) :
  a ∈ [ReLU; PReLU; ELU] -> Sequential_shape (regressor n h h2 a) n = Ok 1.
Proof.
  intros Ha. unfold regressor. cbn [Sequential_shape Module_shape].
  rewrite Z.eqb_refl. cbn.
  assert (Module_shape a h = Ok h) as ->.
  { repeat (apply elem_of_cons in Ha; destruct Ha as [-> | Ha]); try reflexivity.
    by apply elem_of_nil in Ha. }
  cbn. rewrite Z.eqb_refl. cbn.
  assert (Module_shape a h2 = Ok h2) as ->.
  { repeat (apply elem_of_cons in Ha; destruct Ha as [-> | Ha]); try reflexivity.
    by apply elem_of_nil in Ha. }
  cbn. rewrite Z.eqb_refl. reflexivity.
Qed.

Lemma activation_table_modules (k : string) (a : Module) :
  (k, a) ∈ activation_table -> a ∈ [ReLU; PReLU; ELU].
Proof.
  unfold activation_table. intros H.
  repeat (apply elem_of_cons in H; destruct H as [H | H]);
    [ inversion H; subst; apply list_elem_of_here
    | inversion H; subst; apply list_elem_of_further, list_elem_of_here
    | inversion H; subst; do 2 apply list_elem_of_further; apply list_elem_of_here
    | by apply elem_of_nil in H ].
Qed.

Lemma LightningModel_init_known (n : Z) (k : string) (opt loss : option PyValue) :
  0 <= n ->
  k ∈ activation_keys ->
  exists a self,
    (k, a) ∈ activation_table /\
    LightningModel_init n (Some (PyStr k)) opt loss = Ok self /\
    self = {| num_features := n; activation := PyStr k;
              optimizer_name := default (PyStr "Adam") opt;
              loss_name := default (PyStr "MSE") loss;
              model := regressor n (n / 2) (n / 2 / 2) a |}.
Proof.
  intros Hn Hk.
  set (self0 := {| num_features := n; activation := PyStr k;
                   optimizer_name := default (PyStr "Adam") opt;
                   loss_name := default (PyStr "MSE") loss; model := [] |}).
  destruct (build_model_known self0 k Hn eq_refl Hk) as (a & Hka & Hb).
  exists a, (set_model self0 (regressor n (n / 2) (n / 2 / 2) a)).
  split; [ exact Hka | ]. split; [ | reflexivity ].
  change (build_model self0 ≫= (fun m => Ok (set_model self0 m)) =
          Ok (set_model self0 (regressor n (n / 2) (n / 2 / 2) a))).
  rewrite Hb. reflexivity.
Qed.

Lemma LightningModel_init_unknown (n : Z) (k : string) (opt loss : option PyValue) :
  0 <= n ->
  k ∉ activation_keys ->
  LightningModel_init n (Some (PyStr k)) opt loss = Raise (KeyError (PyStr k)).
Proof.
  intros Hn Hk.
  set (self0 := {| num_features := n; activation := PyStr k;
                   optimizer_name := default (PyStr "Adam") opt;
                   loss_name := default (PyStr "MSE") loss; model := [] |}).
  change (build_model self0 ≫= (fun m => Ok (set_model self0 m)) =
          Raise (KeyError (PyStr k))).
  rewrite (build_model_unknown self0 k Hn eq_refl Hk). reflexivity.
Qed.

(** A negative feature count makes the constructor raise in the first
    linear layer, whatever the three names are. *)
Lemma LightningModel_init_negative (n : Z) (act opt loss : option PyValue) :
  n < 0 -> LightningModel_init n act opt loss = Raise RuntimeError.
Proof.
  intros Hn.
  set (self0 := {| num_features := n; activation := default (PyStr "ReLU") act;
                   optimizer_name := default (PyStr "Adam") opt;
                   loss_name := default (PyStr "MSE") loss; model := [] |}).
  change (build_model self0 ≫= (fun m => Ok (set_model self0 m)) = Raise RuntimeError).
  rewrite (build_model_negative self0 Hn). reflexivity.
Qed.

(** C4. For every feature count [n] and every activation key among ReLU,
    PReLU and ELU, the constructor builds exactly the layers
    linear(n, n/2), activation, dropout(0.3), linear(n/2, (n/2)/2),
    activation, dropout(0.3), linear((n/2)/2, 1), with the activation the
    key names; the forward pass takes [n] features to one prediction; and a
    key outside the three builds no model at all. *)
Theorem model_architecture (n : Z) (k : string) (opt loss : option PyValue) :
  0 <= n ->
  (k ∈ activation_keys ->
     exists a self,
       (k, a) ∈ activation_table /\
       LightningModel_init n (Some (PyStr k)) opt loss = Ok self /\
       model self = regressor n (n / 2) (n / 2 / 2) a /\
       forward self n = Ok 1) /\
  (k ∉ activation_keys ->
     LightningModel_init n (Some (PyStr k)) opt loss = Raise (KeyError (PyStr k))).
Proof.
  intros Hn. split; intros Hk.
  - destruct (LightningModel_init_known n k opt loss Hn Hk) as (a & self & Hka & Hi & ->).
    exists a. eexists. split; [ exact Hka | ]. split; [ exact Hi | ].
    split; [ reflexivity | ].
    unfold forward. cbn [model].
    apply regressor_shape. by eapply activation_table_modules.
  - by apply LightningModel_init_unknown.
Qed.

Lemma model_architecture_witness :
  0 <= 10 /\ "ELU" ∈ activation_keys /\
  exists a self,
    ("ELU", a) ∈ activation_table /\
    LightningModel_init 10 (Some (PyStr "ELU")) None None = Ok self /\
    model self = regressor 10 (10 / 2) (10 / 2 / 2) a /\
    forward self 10 = Ok 1.
Proof.
  assert (Hk : "ELU" ∈ activation_keys).
  { unfold activation_keys. do 2 apply list_elem_of_further. apply list_elem_of_here. }
  split; [ lia | ]. split; [ exact Hk | ].
  apply (proj1 (model_architecture 10 "ELU" None None ltac:(lia))). exact Hk.
Defined.

(** ** Resolution of configuration keys *)

Lemma lookup_key_present {V} (d : gmap string V) (k : string) (v : V) :
  d !! k = Some v -> lookup_key d k = Ok v.
Proof. apply getitem_present. Qed.

Lemma train_model_tune_unknown_activation (isatty : bool) (c : Config)
    (nf : Z) (tr va : DataLoader) (me : option Z) (k : string) (opt loss : PyValue) :
  0 <= nf ->
  c !! "activation" = Some (PyStr k) ->
  c !! "optimizer" = Some opt ->
  c !! "loss_function" = Some loss ->
  k ∉ activation_keys ->
  train_model_tune isatty c nf tr va me = Raise (KeyError (PyStr k)).
Proof.
  intros Hn Ha Ho Hl Hk. unfold train_model_tune, train_model_tune_with.
  rewrite (lookup_key_present _ _ _ Ha), (lookup_key_present _ _ _ Ho),
    (lookup_key_present _ _ _ Hl).
  cbn [mbind result_bind].
  rewrite (LightningModel_init_unknown nf k (Some opt) (Some loss) Hn Hk).
  reflexivity.
Qed.

(** C7, inside the trial. The training function resolves the activation
    when it constructs the model, so a trial with an unknown activation
    raises [KeyError] on that name. It looks up neither the optimizer nor
    the loss: they are resolved by [configure_optimizers] and by the steps,
    which only [trainer.fit] would call, and the function raises on the
    checkpoint callback before it gets there. So a trial with ten features
    and a known activation ends in [MisconfigurationException] whatever its
    optimizer and loss names are, ["SGD"] and ["Huber"] among them, and not
    in a lookup error; the two lookups, on the model that trial constructs,
    do raise [KeyError] on the unknown names. *)
Theorem unknown_names_inside_trial (isatty : bool) (train val : DataLoader)
    (max_epochs : option Z) (o l : string) :
  train_model_tune isatty (trial o l "Tanh" 20 5) 10 train val max_epochs =
    Raise (KeyError (PyStr "Tanh")) /\
  train_model_tune isatty (trial o l "ReLU" 20 5) 10 train val max_epochs =
    Raise MisconfigurationException /\
  train_model_tune isatty (trial "SGD" "Huber" "ReLU" 20 5) 10 train val max_epochs =
    Raise MisconfigurationException /\
  (self ← LightningModel_init 10 (Some (PyStr "ReLU")) (Some (PyStr "SGD"))
            (Some (PyStr "Huber"));
   configure_optimizers self) = Raise (KeyError (PyStr "SGD")) /\
  (self ← LightningModel_init 10 (Some (PyStr "ReLU")) (Some (PyStr "SGD"))
            (Some (PyStr "Huber"));
   get_loss_function self) = Raise (KeyError (PyStr "Huber")).
Proof. repeat split; reflexivity. Qed.

(** ** Hidden widths *)

(** C10. For a feature count [n] that is not negative, the two hidden
    widths are the floors of [n/2] and of half the first width, and
    [build_model] returns its layers whatever these widths are: nothing
    guards against a width of 0, so for [n] up to 3 it returns a model
    whose second hidden layer has width 0. *)
Theorem hidden_widths_floor (n : Z) (a o l : string) (m0 : Sequential) :
  0 <= n ->
  a ∈ activation_keys ->
  exists h h2 A,
    build_model (named n a o l m0) = Ok (regressor n h h2 A) /\
    2 * h <= n < 2 * h + 2 /\
    2 * h2 <= h < 2 * h2 + 2 /\
    (n <= 3 -> h2 = 0).
Proof.
  intros Hn Ha.
  destruct (build_model_known (named n a o l m0) a Hn eq_refl Ha) as (A & _ & Hb).
  exists (n / 2), (n / 2 / 2), A. cbn [num_features named] in Hb.
  split; [ exact Hb | ].
  repeat split; intros; Z.div_mod_to_equations; lia.
Qed.

Lemma hidden_widths_floor_witness :
  0 <= 3 /\ "ReLU" ∈ activation_keys /\
  exists h h2 A,
    build_model (named 3 "ReLU" "Adam" "MSE" []) = Ok (regressor 3 h h2 A) /\
    2 * h <= 3 < 2 * h + 2 /\
    2 * h2 <= h < 2 * h2 + 2 /\
    (3 <= 3 -> h2 = 0).
Proof.
  assert (Hk : "ReLU" ∈ activation_keys) by apply list_elem_of_here.
  split; [ lia | ]. split; [ exact Hk | ].
  exact (hidden_widths_floor 3 "ReLU" "Adam" "MSE" [] ltac:(lia) Hk).
Defined.

(** ** Batches of the loader *)

Section Batches.

Local Open Scope nat_scope.
Local Open Scope list_scope.

Lemma mapM_result_Ok {A B} (f : A -> result B) (g : A -> B) (l : list A) :
  Forall (fun x => f x = Ok (g x)) l -> mapM (M := result) f l = Ok (g <$> l).
Proof.
  induction 1 as [ | x l Hx _ IH ]; [ reflexivity | ].
  cbn. rewrite Hx. cbn. rewrite IH. reflexivity.
Qed.

Lemma concat_fmap_fmap {A B} (g : A -> B) (ls : list (list A)) :
  concat ((fun l : list A => (g <$> l : list B)) <$> ls) = (g <$> concat ls : list B).
Proof.
  induction ls as [ | l ls IH ]; [ reflexivity | ].
  cbn. rewrite IH, fmap_app. reflexivity.
Qed.

Lemma BatchSampler_concat (B : nat) (indices batch : list nat) :
  concat (BatchSampler B indices batch) = batch ++ indices.
Proof.
  revert batch. induction indices as [ | idx rest IH ]; intros batch.
  - destruct batch; cbn; [ reflexivity | by rewrite !app_nil_r ].
  - cbn [BatchSampler].
    destruct (Nat.eqb (length (batch ++ [idx])) B).
    + cbn. rewrite IH. cbn. by rewrite <- app_assoc.
    + rewrite IH. by rewrite <- app_assoc.
Qed.

Lemma ceil_full (B n : nat) : 0 < B -> (B + n + B - 1) / B = S ((n + B - 1) / B).
Proof.
  intros HB. replace (B + n + B - 1) with (1 * B + (n + B - 1)) by lia.
  rewrite Nat.div_add_l by lia. lia.
Qed.

Lemma ceil_partial (B b : nat) : 0 < b -> b < B -> (b + 0 + B - 1) / B = 1.
Proof.
  intros Hb HB. replace (b + 0 + B - 1) with (1 * B + (b - 1)) by lia.
  rewrite Nat.div_add_l by lia. rewrite Nat.div_small by lia. lia.
Qed.

Lemma BatchSampler_length (B : nat) (indices batch : list nat) :
  0 < B -> length batch < B ->
  length (BatchSampler B indices batch) = (length batch + length indices + B - 1) / B.
Proof.
  intros HB. revert batch. induction indices as [ | idx rest IH ]; intros batch Hb.
  - destruct batch as [ | x batch ]; cbn [BatchSampler length].
    + rewrite Nat.div_small by lia. reflexivity.
    + symmetry. apply ceil_partial; cbn; cbn in Hb; lia.
  - cbn [BatchSampler].
    destruct (Nat.eqb_spec (length (batch ++ [idx])) B) as [Hfull | Hpart];
      rewrite length_app in *; cbn [length] in *.
    + rewrite IH by (cbn; lia). cbn [length].
      replace (length batch + S (length rest) + B - 1)
        with (B + length rest + B - 1) by lia.
      rewrite ceil_full by lia. reflexivity.
    + rewrite IH by (rewrite length_app; cbn; lia).
      rewrite length_app. cbn [length]. f_equal. lia.
Qed.

(** Every batch is non-empty and holds at most [B] positions, and every
    batch but the last holds exactly [B]. *)
Lemma BatchSampler_sizes (B : nat) (indices batch : list nat) :
  0 < B -> length batch < B ->
  forall i b, BatchSampler B indices batch !! i = Some b ->
    0 < length b <= B /\
    (S i < length (BatchSampler B indices batch) -> length b = B).
Proof.
  intros HB. revert batch. induction indices as [ | idx rest IH ]; intros batch Hb i b Hi.
  - destruct batch as [ | x batch ]; cbn [BatchSampler] in *; [ done | ].
    destruct i; cbn in Hi; [ | done ]. injection Hi as <-.
    cbn in *. split; [ lia | intros; lia ].
  - cbn [BatchSampler] in *.
    destruct (Nat.eqb_spec (length (batch ++ [idx])) B) as [Hfull | Hpart].
    + destruct i as [ | i ]; cbn in Hi.
      * injection Hi as <-. split; [ lia | intros; exact Hfull ].
      * destruct (IH [] ltac:(cbn; lia) i b Hi) as [H1 H2].
        split; [ exact H1 | ]. intros Hlt. apply H2. cbn in Hlt. lia.
    + rewrite length_app in Hpart. cbn in Hpart.
      apply (IH (batch ++ [idx])); [ rewrite length_app; cbn; lia | exact Hi ].
Qed.

End Batches.

Lemma getitem_sample_at (ds : CustomDataset) (i : nat) :
  length (labels ds) = CustomDataset_len ds ->
  (i < CustomDataset_len ds)%nat ->
  CustomDataset_getitem ds i = Ok (sample_at ds i).
Proof.
  unfold CustomDataset_len, CustomDataset_getitem, sample_at. intros Hl Hi.
  destruct (lookup_lt_is_Some_2 (features ds) i Hi) as [f Hf].
  destruct (lookup_lt_is_Some_2 (labels ds) i ltac:(lia)) as [l Hl'].
  rewrite Hf, Hl'.
  by rewrite (nth_lookup_Some _ _ _ _ Hf), (nth_lookup_Some _ _ _ _ Hl').
Qed.

Lemma sampler_in_range (dl : DataLoader) (draw : list nat) :
  draw ≡ₚ seq 0 (CustomDataset_len (dataset dl)) ->
  Forall (fun i => (i < CustomDataset_len (dataset dl))%nat) (sampler dl draw).
Proof.
  intros Hp. unfold sampler. apply Forall_forall. intros i Hi.
  assert (i ∈ seq 0 (CustomDataset_len (dataset dl))) as Hs.
  { destruct (shuffle dl); [ by rewrite <- Hp | exact Hi ]. }
  apply elem_of_seq in Hs. lia.
Qed.

Lemma sampler_length (dl : DataLoader) (draw : list nat) :
  draw ≡ₚ seq 0 (CustomDataset_len (dataset dl)) ->
  length (sampler dl draw) = CustomDataset_len (dataset dl).
Proof.
  intros Hp. unfold sampler. destruct (shuffle dl).
  - by rewrite Hp, length_seq.
  - by rewrite length_seq.
Qed.

(** One pass over a loader fetches, batch by batch, the samples at the
    positions the batch sampler yields. *)
Lemma DataLoader_iter_Ok (dl : DataLoader) (draw : list nat) :
  length (labels (dataset dl)) = CustomDataset_len (dataset dl) ->
  draw ≡ₚ seq 0 (CustomDataset_len (dataset dl)) ->
  DataLoader_iter dl draw =
    Ok ((fun b : list nat => (sample_at (dataset dl) <$> b : list (list Q * Q)))
          <$> batch_indices dl draw).
Proof.
  intros Hl Hp. unfold DataLoader_iter.
  apply (mapM_result_Ok _ (fun b : list nat => sample_at (dataset dl) <$> b)).
  assert (Forall (Forall (fun i => (i < CustomDataset_len (dataset dl))%nat))
            (batch_indices dl draw)) as Hall.
  { apply Forall_concat. unfold batch_indices. rewrite BatchSampler_concat.
    cbn. by apply sampler_in_range. }
  eapply Forall_impl; [ exact Hall | ].
  intros b Hb. cbn beta. apply mapM_result_Ok.
  eapply Forall_impl; [ exact Hb | ].
  intros i Hi. by apply getitem_sample_at.
Qed.

(** C8. One pass over a loader on [S] samples with batch size [B] yields
    [ceil(S/B)] batches, each non-empty and of at most [B] samples and each
    but the last of exactly [B]; the samples come in the order of the
    sampler, which is the dataset order without shuffling and the shuffled
    order with it. The script's training loader has batch size 1024 and
    shuffles, its evaluation loader does not shuffle, and both use
    [min(8, cpu_count)] workers. *)
Theorem loader_batches (dl : DataLoader) (draw : list nat) :
  (0 < batch_size dl)%nat ->
  length (labels (dataset dl)) = CustomDataset_len (dataset dl) ->
  draw ≡ₚ seq 0 (CustomDataset_len (dataset dl)) ->
  (exists batches,
     DataLoader_iter dl draw = Ok batches /\
     length batches = ceil_div (CustomDataset_len (dataset dl)) (batch_size dl) /\
     (forall i b, batches !! i = Some b ->
        (0 < length b <= batch_size dl)%nat /\
        ((S i < length batches)%nat -> length b = batch_size dl)) /\
     Forall2 (fun i s => CustomDataset_getitem (dataset dl) i = Ok s)
       (if shuffle dl then draw else seq 0 (CustomDataset_len (dataset dl)))
       (concat batches)) /\
  (forall permutation cpu_count parquet draw0 p,
     prepare permutation cpu_count parquet draw0 = Ok p ->
     batch_size (train_dataloader p) = 1024%nat /\
     shuffle (train_dataloader p) = true /\
     num_workers (train_dataloader p) = Z.min 8 cpu_count /\
     batch_size (test_dataloader p) = 1024%nat /\
     shuffle (test_dataloader p) = false /\
     num_workers (test_dataloader p) = Z.min 8 cpu_count).
Proof.
  intros HB Hl Hp. split.
  - eexists. split; [ by apply DataLoader_iter_Ok | ].
    split; [ | split ].
    + rewrite length_fmap. unfold batch_indices.
      rewrite BatchSampler_length by (cbn; lia).
      cbn [length]. rewrite (sampler_length dl draw Hp). reflexivity.
    + intros i b Hi. rewrite length_fmap.
      rewrite list_lookup_fmap in Hi.
      destruct (batch_indices dl draw !! i) as [ bi | ] eqn:Hbi; [ | done ].
      cbn in Hi. injection Hi as <-. rewrite length_fmap.
      unfold batch_indices in *.
      by apply (BatchSampler_sizes (batch_size dl) (sampler dl draw) [] HB
                  ltac:(cbn; lia) i bi).
    + rewrite concat_fmap_fmap. unfold batch_indices.
      rewrite BatchSampler_concat. cbn [app].
      apply Forall2_fmap_r. apply Forall_Forall2_diag.
      eapply Forall_impl; [ by apply sampler_in_range | ].
      intros i Hi. cbn. by apply getitem_sample_at.
  - intros permutation cpu_count parquet draw0 p Hprep.
    unfold prepare in Hprep.
    repeat match type of Hprep with
           | (?m ≫= _) = Ok _ => destruct m; cbn [mbind result_bind] in Hprep;
                                   [ | discriminate Hprep ]
           | (let '(_, _) := ?a in _) = Ok _ => destruct a
           end.
    injection Hprep as <-. repeat split.
Qed.

Lemma loader_batches_witness :
  exists batches,
    DataLoader_iter
      {| dataset := {| features := [[1%Q]; [2%Q]; [3%Q]; [4%Q]; [5%Q]];
                       labels := [10%Q; 20%Q; 30%Q; 40%Q; 50%Q] |};
         batch_size := 2; shuffle := true; num_workers := 4 |}
      [3; 0; 4; 1; 2]%nat = Ok batches /\
    length batches = 3%nat.
Proof.
  destruct (loader_batches
              {| dataset := {| features := [[1%Q]; [2%Q]; [3%Q]; [4%Q]; [5%Q]];
                               labels := [10%Q; 20%Q; 30%Q; 40%Q; 50%Q] |};
                 batch_size := 2; shuffle := true; num_workers := 4 |}
              [3; 0; 4; 1; 2]%nat) as [(batches & Hi & Hl & _) _].
  - cbn. lia.
  - reflexivity.
  - cbn. apply (Permutation_trans (l' := [0; 3; 4; 1; 2]%nat)); [ apply perm_swap | ].
    apply perm_skip.
    apply (Permutation_trans (l' := [3; 1; 4; 2]%nat)); [ apply perm_skip, perm_swap | ].
    apply (Permutation_trans (l' := [1; 3; 4; 2]%nat)); [ apply perm_swap | ].
    apply perm_skip.
    apply (Permutation_trans (l' := [3; 2; 4]%nat)); [ apply perm_skip, perm_swap | ].
    apply (Permutation_trans (l' := [2; 3; 4]%nat)); [ apply perm_swap | ].
    reflexivity.
  - exists batches. split; [ exact Hi | exact Hl ].
Defined.

(** ** The train/test split *)

Section SplitFacts.

Local Open Scope nat_scope.
Local Open Scope list_scope.

Lemma take_rows_Ok {A} (a : list A) (indices : list nat) :
  Forall (fun i => i < length a) indices ->
  take_rows a indices = Ok (omap (fun i => a !! i) indices) /\
  length (omap (fun i => a !! i) indices) = length indices.
Proof.
  unfold take_rows. induction 1 as [ | i indices Hi _ [IH1 IH2] ]; [ done | ].
  destruct (lookup_lt_is_Some_2 a i Hi) as [x Hx].
  destruct (mapM (fun i => a !! i) indices) as [ r | ] eqn:Hr; [ | discriminate IH1 ].
  injection IH1 as IH1. cbn. rewrite Hx. cbn. rewrite Hr. cbn.
  rewrite IH1. split; [ reflexivity | ]. cbn. by rewrite IH2.
Qed.

Lemma omap_lookup_seq {A} (a : list A) :
  omap (fun i => a !! i) (seq 0 (length a)) = a.
Proof.
  induction a as [ | x a IH ]; [ reflexivity | ].
  cbn [length seq]. cbn. f_equal.
  rewrite <- IH at 2. apply list_omap_ext.
  rewrite <- fmap_S_seq. apply Forall2_fmap_l, Forall_Forall2_diag, Forall_true.
  reflexivity.
Qed.

Lemma Qceiling_fifth (n : nat) :
  let t := Z.to_nat (Qceiling ((2 # 10) * inject_Z (Z.of_nat n))) in
  n <= 5 * t < n + 5.
Proof.
  cbv zeta. unfold Qceiling, Qfloor, Qopp, Qmult, inject_Z. cbn [Qnum Qden].
  change (Z.pos (10 * 1)) with 10%Z.
  assert (H : (- (- (2 * Z.of_nat n) / 10) = (Z.of_nat n + 4) / 5)%Z).
  { Z.div_mod_to_equations. lia. }
  rewrite H.
  assert (0 <= (Z.of_nat n + 4) / 5)%Z by (Z.div_mod_to_equations; lia).
  assert (Hn : (Z.of_nat n <= 5 * ((Z.of_nat n + 4) / 5) < Z.of_nat n + 5)%Z)
    by (Z.div_mod_to_equations; lia).
  lia.
Qed.

Lemma validate_shuffle_split_fifth (n : nat) :
  2 <= n ->
  exists n_train n_test,
    validate_shuffle_split n (2 # 10) = Ok (n_train, n_test) /\
    n_train + n_test = n /\ 0 < n_train /\ n <= 5 * n_test < n + 5.
Proof.
  intros Hn. unfold validate_shuffle_split.
  change (Qle_bool (2 # 10) 0 || Qle_bool 1 (2 # 10)) with false. cbv iota.
  pose proof (Qceiling_fifth n) as Ht. cbv zeta in Ht.
  set (t := Z.to_nat (Qceiling ((2 # 10) * inject_Z (Z.of_nat n)))) in *.
  destruct (Nat.eqb_spec (n - t) 0) as [H0 | H0]; [ lia | ].
  exists (n - t), t. repeat split; lia.
Qed.

Variable permutation : Z -> nat -> list nat.
Hypothesis permutation_seq : forall seed n, permutation seed n ≡ₚ seq 0 n.

Lemma split_indices_partition (n : nat) :
  2 <= n ->
  exists ind_train ind_test,
    split_indices permutation n (2 # 10) 42 = Ok (ind_train, ind_test) /\
    ind_train ++ ind_test ≡ₚ seq 0 n /\
    length ind_train + length ind_test = n /\
    n <= 5 * length ind_test < n + 5.
Proof.
  intros Hn. unfold split_indices.
  destruct (validate_shuffle_split_fifth n Hn) as (n_train & n_test & -> & Hsum & Hpos & Hfifth).
  cbn [mbind result_bind].
  pose proof (permutation_seq 42%Z n) as Hp.
  assert (Hlen : length (permutation 42%Z n) = n) by (by rewrite Hp, length_seq).
  set (p := permutation 42%Z n) in *.
  assert (Htake : take n_train (drop n_test p) = drop n_test p).
  { apply take_ge. rewrite length_drop. lia. }
  rewrite Htake.
  exists (drop n_test p), (take n_test p). split; [ reflexivity | ].
  split; [ | split ].
  - rewrite (Permutation_app_comm (drop n_test p)), take_drop. exact Hp.
  - rewrite length_drop, length_take. lia.
  - rewrite length_take. lia.
Qed.

Lemma take_rows_partition {A} (a : list A) (ind_train ind_test : list nat) :
  ind_train ++ ind_test ≡ₚ seq 0 (length a) ->
  take_rows a ind_train = Ok (omap (fun i => a !! i) ind_train) /\
  take_rows a ind_test = Ok (omap (fun i => a !! i) ind_test) /\
  length (omap (fun i => a !! i) ind_train) = length ind_train /\
  length (omap (fun i => a !! i) ind_test) = length ind_test /\
  omap (fun i => a !! i) ind_train ++ omap (fun i => a !! i) ind_test ≡ₚ a.
Proof.
  intros Hp.
  assert (Hall : Forall (fun i => i < length a) (ind_train ++ ind_test)).
  { apply Forall_forall. intros i Hi. rewrite Hp in Hi.
    apply elem_of_seq in Hi. lia. }
  apply Forall_app in Hall. destruct Hall as [Htr Hte].
  destruct (take_rows_Ok a ind_train Htr) as [-> ->].
  destruct (take_rows_Ok a ind_test Hte) as [-> ->].
  repeat split.
  rewrite <- omap_app, Hp. by rewrite omap_lookup_seq.
Qed.

End SplitFacts.

(** C3. For every dataset of at least two rows, the split returns train and
    test parts whose row counts add up to the row count of the input; the
    train and test positions are disjoint and together are all positions,
    so the parts are a rearrangement of the input rows; the test part holds
    [ceil(0.2 * n)] rows and the train part the other rows; and the split
    depends on the random generator only through the permutation drawn for
    seed 42, so two splits of the same arrays are the same. *)
Theorem split_partition {A B} (permutation : Z -> nat -> list nat)
    (X : list A) (y : list B) :
  (forall seed n, permutation seed n ≡ₚ seq 0 n) ->
  length y = length X ->
  (2 <= length X)%nat ->
  exists ind_train ind_test X_train X_test y_train y_test,
    split_indices permutation (length X) (2 # 10) 42 = Ok (ind_train, ind_test) /\
    train_test_split permutation X y (2 # 10) 42 = Ok (X_train, X_test, y_train, y_test) /\
    (ind_train ++ ind_test)%list ≡ₚ seq 0 (length X) /\
    X_train = omap (fun i => X !! i) ind_train /\
    X_test = omap (fun i => X !! i) ind_test /\
    y_train = omap (fun i => y !! i) ind_train /\
    y_test = omap (fun i => y !! i) ind_test /\
    (length X_train + length X_test = length X)%nat /\
    (length y_train + length y_test = length y)%nat /\
    length y_train = length X_train /\
    (length X <= 5 * length X_test < length X + 5)%nat /\
    (X_train ++ X_test)%list ≡ₚ X /\
    (y_train ++ y_test)%list ≡ₚ y /\
    (forall permutation' : Z -> nat -> list nat,
       permutation' 42 (length X) = permutation 42 (length X) ->
       train_test_split permutation' X y (2 # 10) 42 =
       train_test_split permutation X y (2 # 10) 42).
Proof.
  intros Hperm Hy Hn.
  destruct (split_indices_partition permutation Hperm (length X) Hn)
    as (ind_train & ind_test & Hsplit & Hp & Hlen & Hfifth).
  destruct (take_rows_partition X ind_train ind_test Hp)
    as (HXtr & HXte & HlXtr & HlXte & HXp).
  assert (Hp' : (ind_train ++ ind_test)%list ≡ₚ seq 0 (length y)) by (by rewrite Hy).
  destruct (take_rows_partition y ind_train ind_test Hp')
    as (Hytr & Hyte & Hlytr & Hlyte & Hyp).
  exists ind_train, ind_test.
  exists (omap (fun i => X !! i) ind_train), (omap (fun i => X !! i) ind_test).
  exists (omap (fun i => y !! i) ind_train), (omap (fun i => y !! i) ind_test).
  split; [ exact Hsplit | ]. split.
  { unfold train_test_split. rewrite Hy, Nat.eqb_refl. cbn [negb].
    rewrite Hsplit. cbn [mbind result_bind].
    rewrite HXtr, HXte, Hytr, Hyte. reflexivity. }
  split; [ exact Hp | ].
  do 4 (split; [ reflexivity | ]).
  split; [ lia | ]. split; [ lia | ]. split; [ lia | ]. split; [ lia | ].
  split; [ exact HXp | ]. split; [ exact Hyp | ].
  intros permutation' Heq. unfold train_test_split, split_indices.
  rewrite Heq. reflexivity.
Qed.

Lemma split_partition_witness :
  exists X_train X_test y_train y_test,
    train_test_split (fun _ n => rev (seq 0 n))
      [10; 20; 30; 40; 50; 60]%nat [1; 2; 3; 4; 5; 6]%nat (2 # 10) 42 =
      Ok (X_train, X_test, y_train, y_test) /\
    (length X_train + length X_test = 6)%nat /\
    (X_train ++ X_test)%list ≡ₚ [10; 20; 30; 40; 50; 60]%nat.
Proof.
  destruct (split_partition (fun _ n => rev (seq 0 n))
              [10; 20; 30; 40; 50; 60]%nat [1; 2; 3; 4; 5; 6]%nat)
    as (itr & ite & Xtr & Xte & ytr & yte & _ & Hs & _ & _ & _ & _ & _ & Hl & _ & _ & _ & HX & _).
  - intros seed n. apply Permutation_sym, Permutation_rev.
  - reflexivity.
  - cbn. lia.
  - exists Xtr, Xte, ytr, yte. split; [ exact Hs | ]. split; [ exact Hl | exact HX ].
Defined.

(** ** Dataset preparation *)

Lemma column_index_absent (name : string) (cols : list string) :
  name ∉ cols -> column_index name cols = None.
Proof.
  induction cols as [ | c cols IH ]; intros Hn; [ reflexivity | ].
  apply not_elem_of_cons in Hn. destruct Hn as [Hne Hn].
  cbn. destruct (String.eqb_spec name c) as [-> | _]; [ done | ].
  by rewrite IH.
Qed.

Lemma DataFrame_sample_short (df : DataFrame) (n : nat) (draw : list nat) :
  (length (rows df) < n)%nat -> DataFrame_sample df n draw = Raise ValueError.
Proof.
  intros H. unfold DataFrame_sample.
  destruct (Nat.leb_spec n (length (rows df))); [ lia | reflexivity ].
Qed.

Lemma DataFrame_sample_Ok (df : DataFrame) (n : nat) (draw : list nat) :
  (n <= length (rows df))%nat ->
  Forall (fun i => (i < length (rows df))%nat) draw ->
  exists r, DataFrame_sample df n draw = Ok {| columns := columns df; rows := r |}.
Proof.
  intros H Hd. unfold DataFrame_sample.
  destruct (Nat.leb_spec n (length (rows df))); [ | lia ].
  destruct (take_rows_Ok (rows df) draw Hd) as [-> _]. eexists. reflexivity.
Qed.

(** C6, as the code has it. Preparation fails on every dataset of fewer
    than 1500 rows, an empty one among them, in the subsample and whatever
    its columns are; on a dataset of at least 1500 rows that lacks the
    target column it fails in the feature/target split, with a lookup error
    on the column name; in both cases the run ends there, before any trial
    is started. *)
Theorem preparation_failures (permutation : Z -> nat -> list nat) (cpu_count : Z)
    (isatty : bool) (Tuner_fit : Tuner -> list Result) (df : DataFrame)
    (draw : list nat) :
  ((length (rows df) < 1500)%nat ->
     prepare permutation cpu_count (Ok df) draw = Raise ValueError /\
     main permutation cpu_count isatty Tuner_fit (Ok df) draw = Raise ValueError) /\
  (rows df = [] ->
     prepare permutation cpu_count (Ok df) draw = Raise ValueError) /\
  ((1500 <= length (rows df))%nat ->
   Forall (fun i => (i < length (rows df))%nat) draw ->
   "perf" ∉ columns df ->
     prepare permutation cpu_count (Ok df) draw = Raise (KeyError (PyStr "perf")) /\
     main permutation cpu_count isatty Tuner_fit (Ok df) draw =
       Raise (KeyError (PyStr "perf"))).
Proof.
  assert (Hshort : (length (rows df) < 1500)%nat ->
            prepare permutation cpu_count (Ok df) draw = Raise ValueError).
  { intros H. unfold prepare. cbn [mbind result_bind]. unfold astype_float32.
    rewrite (DataFrame_sample_short df 1500 draw H). reflexivity. }
  split; [ | split ].
  - intros H. split; [ by apply Hshort | ].
    unfold main. rewrite (Hshort H). reflexivity.
  - intros H. apply Hshort. rewrite H. cbn. lia.
  - intros H Hd Hp.
    assert (Hprep : prepare permutation cpu_count (Ok df) draw =
                    Raise (KeyError (PyStr "perf"))).
    { unfold prepare. cbn [mbind result_bind]. unfold astype_float32.
      destruct (DataFrame_sample_Ok df 1500 draw H Hd) as [r ->].
      cbn [mbind result_bind]. unfold DataFrame_getitem. cbn [columns].
      rewrite (column_index_absent "perf" (columns df) Hp). reflexivity. }
    split; [ exact Hprep | ]. unfold main. rewrite Hprep. reflexivity.
Qed.

(** ** The tuning driver *)

(** C9, at the scheduler. The two bounds of the scheduler are computed as
    [max] and [min] over the marker dicts that [tune.grid_search] returns;
    iterating a dict yields its keys, so both bounds are the string
    ["grid_search"], not 40 and 5, and the constructor's first assertion
    compares a string with an integer. *)
Theorem scheduler_bounds_are_marker_keys :
  scheduler_max_t = Ok (PyStr "grid_search") /\
  scheduler_grace_period = Ok (PyStr "grid_search") /\
  scheduler_max_t <> Ok (PyInt 40) /\
  scheduler_grace_period <> Ok (PyInt 5) /\
  ASHAScheduler_init "training_iteration" (PyStr "grid_search") (PyStr "grid_search")
    (PyInt 2) = Raise TypeError.
Proof. repeat split; try reflexivity; discriminate. Qed.

(** C1, at the driver. Whatever the inputs and however Ray would run the
    trials, [tune_hyperparameters] raises while it constructs the
    scheduler: it returns no configuration, and neither does the run with
    the sample budget of 18. *)
Theorem tune_hyperparameters_raises (permutation : Z -> nat -> list nat)
    (cpu_count : Z) (isatty : bool) (Tuner_fit : Tuner -> list Result) :
  (forall num_features train val num_samples,
     tune_hyperparameters isatty Tuner_fit num_features train val num_samples =
       Raise TypeError) /\
  (forall parquet draw,
     raises (main permutation cpu_count isatty Tuner_fit parquet draw)).
Proof.
  split; [ reflexivity | ].
  intros parquet draw. unfold main.
  destruct (prepare permutation cpu_count parquet draw) as [ p | e ].
  - exists TypeError. reflexivity.
  - exists e. reflexivity.
Qed.

(** A trial whose three entries are present and whose activation is known
    constructs its model and is then refused by the checkpoint callback. *)
Lemma train_model_tune_refused (isatty : bool) (c : Config) (nf : Z)
    (tr va : DataLoader) (me : option Z) (a : string) (o l : PyValue) :
  0 <= nf ->
  c !! "activation" = Some (PyStr a) ->
  c !! "optimizer" = Some o ->
  c !! "loss_function" = Some l ->
  a ∈ activation_keys ->
  train_model_tune isatty c nf tr va me = Raise MisconfigurationException.
Proof.
  intros Hn Ha Ho Hl Hk. unfold train_model_tune, train_model_tune_with.
  rewrite (lookup_key_present c "activation" _ Ha),
    (lookup_key_present c "optimizer" _ Ho),
    (lookup_key_present c "loss_function" _ Hl).
  cbn [mbind result_bind].
  destruct (LightningModel_init_known nf a (Some o) (Some l) Hn Hk)
    as (A & self & _ & -> & _).
  reflexivity.
Qed.

(** With a negative feature count the trial is refused earlier, by the
    first linear layer. *)
Lemma train_model_tune_negative (isatty : bool) (c : Config) (nf : Z)
    (tr va : DataLoader) (me : option Z) (a o l : PyValue) :
  nf < 0 ->
  c !! "activation" = Some a ->
  c !! "optimizer" = Some o ->
  c !! "loss_function" = Some l ->
  train_model_tune isatty c nf tr va me = Raise RuntimeError.
Proof.
  intros Hn Ha Ho Hl. unfold train_model_tune, train_model_tune_with.
  rewrite (lookup_key_present c "activation" _ Ha),
    (lookup_key_present c "optimizer" _ Ho),
    (lookup_key_present c "loss_function" _ Hl).
  cbn [mbind result_bind].
  rewrite (LightningModel_init_negative nf (Some a) (Some o) (Some l) Hn).
  reflexivity.
Qed.

(** C5, at the checkpoint callback. The callback is constructed with
    [save_top_k=5] and no monitored quantity, which the constructor
    refuses; so for a trial configuration of the search space the training
    function raises before a trainer exists and no checkpoint is kept: on
    the refusal of the callback for every feature count that is not
    negative, and for a negative one earlier still, when the first linear
    layer is constructed. *)
Theorem checkpoint_configuration_refused :
  ModelCheckpoint_init "checkpoints" "epoch-{epoch:02d}-val_loss-{val_loss:.2f}"
    None 5 true 1 = Raise MisconfigurationException /\
  (forall isatty num_features train val max_epochs,
     train_model_tune isatty (trial "Adam" "MSE" "ReLU" 20 5)
       num_features train val max_epochs =
     Raise (if Z.ltb num_features 0 then RuntimeError else MisconfigurationException)).
Proof.
  split; [ reflexivity | ].
  intros isatty num_features train val max_epochs.
  destruct (Z.ltb_spec num_features 0) as [Hneg | Hpos].
  - by apply (train_model_tune_negative isatty _ num_features train val max_epochs
                (PyStr "ReLU") (PyStr "Adam") (PyStr "MSE")).
  - apply (train_model_tune_refused isatty _ num_features train val max_epochs
             "ReLU" (PyStr "Adam") (PyStr "MSE")); try done.
    apply list_elem_of_here.
Qed.

Lemma preparation_failures_witness :
  prepare (fun _ n => seq 0 n) 4
    (Ok {| columns := ["cpu"; "mem"]; rows := replicate 1500 [1%Q; 2%Q] |})
    (seq 0 1500) = Raise (KeyError (PyStr "perf")) /\
  prepare (fun _ n => seq 0 n) 4 (Ok {| columns := ["cpu"; "perf"]; rows := [] |}) [] =
    Raise ValueError.
Proof.
  split.
  - destruct (preparation_failures (fun _ n => seq 0 n) 4 true (fun _ => [])
                {| columns := ["cpu"; "mem"]; rows := replicate 1500 [1%Q; 2%Q] |}
                (seq 0 1500)) as (_ & _ & H).
    apply H.
    + cbn [rows]. rewrite length_replicate. lia.
    + cbn [rows]. rewrite length_replicate. apply Forall_forall.
      intros i Hi. apply elem_of_seq in Hi. lia.
    + cbn [columns]. intros Hin.
      repeat (apply elem_of_cons in Hin; destruct Hin as [Hin | Hin]);
        try discriminate Hin.
      by apply elem_of_nil in Hin.
  - destruct (preparation_failures (fun _ n => seq 0 n) 4 true (fun _ => [])
                {| columns := ["cpu"; "perf"]; rows := [] |} []) as (_ & H & _).
    apply H. reflexivity.
Defined.

(** C6, as the claim words it, fails: a dataset without the target column
    and with fewer than 1500 rows does not reach the feature/target split,
    the subsample raises first. *)
Lemma missing_target_fails_in_subsample :
  ("perf" ∉ columns {| columns := ["cpu"; "mem"]; rows := [[1%Q; 2%Q]; [3%Q; 4%Q]] |}) /\
  prepare (fun _ n => seq 0 n) 4
    (Ok {| columns := ["cpu"; "mem"]; rows := [[1%Q; 2%Q]; [3%Q; 4%Q]] |}) [0%nat; 1%nat]
    = Raise ValueError /\
  prepare (fun _ n => seq 0 n) 4
    (Ok {| columns := ["cpu"; "mem"]; rows := [[1%Q; 2%Q]; [3%Q; 4%Q]] |}) [0%nat; 1%nat]
    <> Raise (KeyError (PyStr "perf")).
Proof.
  split; [ | split ].
  - cbn [columns]. intros H.
    repeat (apply elem_of_cons in H; destruct H as [H | H]); try discriminate H.
    by apply elem_of_nil in H.
  - reflexivity.
  - discriminate.
Qed.

(** ** Sampled schedule bounds *)






(** ** Best-result extraction *)

Lemma best_of_min (metric : string) (rb : Result) (vb : Q) (rs : list Result) :
  exists v,
    ((best_of metric true (rb, vb) rs = rb /\ v = vb) \/
     (best_of metric true (rb, vb) rs ∈ rs /\
      Result_metrics (best_of metric true (rb, vb) rs) !! metric = Some v)) /\
    (v <= vb)%Q /\
    forall r' v', r' ∈ rs -> Result_metrics r' !! metric = Some v' -> (v <= v')%Q.
Proof.
  revert rb vb. induction rs as [ | r rest IH ]; intros rb vb.
  - exists vb. split; [ left; done | ]. split; [ apply Qle_refl | ].
    intros r' v' H. by apply elem_of_nil in H.
  - cbn [best_of]. destruct (Result_metrics r !! metric) as [ x | ] eqn:Hx.
    + cbn [snd]. destruct (Qle_bool vb x) eqn:Hle; cbn [negb].
      * apply Qle_bool_iff in Hle.
        destruct (IH rb vb) as (v & Hsel & Hv & Hmin). exists v.
        split; [ | split; [ exact Hv | ] ].
        { destruct Hsel as [Hsel | [Hin Hm]]; [ left; exact Hsel | right ].
          split; [ by apply list_elem_of_further | exact Hm ]. }
        intros r' v' Hin Hm. apply elem_of_cons in Hin. destruct Hin as [-> | Hin].
        { rewrite Hx in Hm. injection Hm as <-. by eapply Qle_trans. }
        by eapply Hmin.
      * assert (Hlt : (x < vb)%Q).
        { apply Qnot_le_lt. intros Hc. apply Qle_bool_iff in Hc. congruence. }
        destruct (IH r x) as (v & Hsel & Hv & Hmin). exists v.
        split; [ right | split ].
        { destruct Hsel as [[Hsel ->] | [Hin Hm]].
          - rewrite Hsel. split; [ apply list_elem_of_here | exact Hx ].
          - split; [ by apply list_elem_of_further | exact Hm ]. }
        { apply Qlt_le_weak. by eapply Qle_lt_trans. }
        intros r' v' Hin Hm. apply elem_of_cons in Hin. destruct Hin as [-> | Hin].
        { rewrite Hx in Hm. by injection Hm as <-. }
        by eapply Hmin.
    + destruct (IH rb vb) as (v & Hsel & Hv & Hmin). exists v.
      split; [ | split; [ exact Hv | ] ].
      { destruct Hsel as [Hsel | [Hin Hm]]; [ left; exact Hsel | right ].
        split; [ by apply list_elem_of_further | exact Hm ]. }
      intros r' v' Hin Hm. apply elem_of_cons in Hin. destruct Hin as [-> | Hin].
      { congruence. }
      by eapply Hmin.
Qed.

(** The search for the best trial: over a result grid in which some trial
    reported the metric, it finds a trial of the grid whose reported value
    is least. *)
Lemma get_best_trial_min (results : list Result) (metric : string) :
  (exists r v, r ∈ results /\ Result_metrics r !! metric = Some v) ->
  exists best v,
    get_best_trial results metric true = Some best /\
    best ∈ results /\
    Result_metrics best !! metric = Some v /\
    forall r' v', r' ∈ results -> Result_metrics r' !! metric = Some v' -> (v <= v')%Q.
Proof.
  induction results as [ | r rest IH ]; intros (r0 & v0 & Hin & Hm).
  - by apply elem_of_nil in Hin.
  - cbn [get_best_trial].
    destruct (Result_metrics r !! metric) as [ x | ] eqn:Hx.
    + destruct (best_of_min metric r x rest) as (v & Hsel & Hv & Hmin).
      exists (best_of metric true (r, x) rest), v. split; [ reflexivity | ].
      destruct Hsel as [[Hsel ->] | [Hin' Hm']].
      * rewrite Hsel. split; [ apply list_elem_of_here | ]. split; [ exact Hx | ].
        intros r' v' Hin' Hm'. apply elem_of_cons in Hin'. destruct Hin' as [-> | Hin'].
        { rewrite Hx in Hm'. injection Hm' as <-. apply Qle_refl. }
        by eapply Hmin.
      * split; [ by apply list_elem_of_further | ]. split; [ exact Hm' | ].
        intros r' v' Hin'' Hm''. apply elem_of_cons in Hin''.
        destruct Hin'' as [-> | Hin''].
        { rewrite Hx in Hm''. by injection Hm'' as <-. }
        by eapply Hmin.
    + apply elem_of_cons in Hin. destruct Hin as [-> | Hin]; [ congruence | ].
      destruct (IH (ex_intro _ r0 (ex_intro _ v0 (conj Hin Hm))))
        as (best & v & Hg & Hb & Hbm & Hmin).
      exists best, v. split; [ exact Hg | ].
      split; [ by apply list_elem_of_further | ]. split; [ exact Hbm | ].
      intros r' v' Hin' Hm'. apply elem_of_cons in Hin'. destruct Hin' as [-> | Hin'].
      { congruence. }
      by eapply Hmin.
Qed.

(** The extraction step on its own: over a result grid in which some trial
    reported the metric, [get_best_result] in mode ["min"] returns a trial of
    the grid whose reported value is least; in a grid of one that trial is
    the only one. *)
Lemma get_best_result_min (results : list Result) (metric : string) :
  (exists r v, r ∈ results /\ Result_metrics r !! metric = Some v) ->
  exists best v,
    get_best_result results metric "min" = Ok best /\
    best ∈ results /\
    Result_metrics best !! metric = Some v /\
    forall r' v', r' ∈ results -> Result_metrics r' !! metric = Some v' -> (v <= v')%Q.
Proof.
  intros Hex.
  destruct (get_best_trial_min results metric Hex) as (best & v & Hg & Hb & Hbm & Hmin).
  destruct results as [ | r [ | r' rest ] ].
  - by apply elem_of_nil in Hb.
  - apply elem_of_cons in Hb. destruct Hb as [-> | Hb]; [ | by apply elem_of_nil in Hb ].
    exists r, v. split; [ reflexivity | ]. split; [ apply list_elem_of_here | ].
    split; [ exact Hbm | exact Hmin ].
  - exists best, v. split; [ | split; [ exact Hb | split; [ exact Hbm | exact Hmin ] ] ].
    unfold get_best_result. change (negb (_ || _)) with false. cbv iota.
    change (String.eqb "min" "min") with true. by rewrite Hg.
Qed.

(** A grid of one trial: the trial is returned whether or not it reported
    the metric. *)
Lemma get_best_result_single (r : Result) (metric mode : string) :
  get_best_result [r] metric mode = Ok r.
Proof. reflexivity. Qed.

(** Three stub trials reporting the losses 0.5, 0.2 and 0.9: the extraction
    step selects the one with 0.2. *)
Example get_best_result_stub :
  (best ←
    get_best_result
      [ {| Result_config := trial "Adam" "MSE" "ReLU" 20 5;
           Result_metrics := {[ "loss" := (5 # 10)%Q ]} |};
        {| Result_config := trial "AdamW" "MAE" "ELU" 30 10;
           Result_metrics := {[ "loss" := (2 # 10)%Q ]} |};
        {| Result_config := trial "Adam" "MAE" "PReLU" 40 15;
           Result_metrics := {[ "loss" := (9 # 10)%Q ]} |} ]
      "loss" "min";
   Ok (Result_metrics best))
  = Ok {[ "loss" := (2 # 10)%Q ]}.
Proof. reflexivity. Qed.

(** * Further properties of the script *)

(** ** Construction and resolution *)

Lemma returns_Ok {A} (a : A) : returns (Ok a).
Proof. by exists a. Qed.

Lemma returns_Raise {A} (e : PyError) : ~ returns (Raise e : result A).
Proof. intros [a H]. discriminate H. Qed.

Lemma get_optimizer_known (self : LightningModel) (o : string) :
  has_parameters (model self) = true ->
  optimizer_name self = PyStr o -> o ∈ optimizer_keys ->
  (o = "Adam" /\ get_optimizer self = Ok (Adam (model self) (1 # 1000))) \/
  (o = "AdamW" /\ get_optimizer self = Ok (AdamW (model self) (1 # 1000))).
Proof.
  intros Hp Ho Hin. rewrite (get_optimizer_table self Hp), Ho.
  unfold optimizer_keys in Hin.
  repeat (apply elem_of_cons in Hin; destruct Hin as [-> | Hin]);
    [ left | right | by apply elem_of_nil in Hin ]; split; reflexivity.
Qed.

Lemma get_loss_function_known (self : LightningModel) (l : string) :
  loss_name self = PyStr l -> l ∈ loss_keys ->
  exists L, (l, L) ∈ loss_table /\ get_loss_function self = Ok L.
Proof.
  intros Hl Hin. unfold get_loss_function. rewrite Hl. unfold loss_keys in Hin.
  repeat (apply elem_of_cons in Hin; destruct Hin as [-> | Hin]);
    [ exists MSELoss | exists SmoothL1Loss | exists L1Loss
    | by apply elem_of_nil in Hin ];
    (split; [ unfold loss_table | reflexivity ]).
  - apply list_elem_of_here.
  - apply list_elem_of_further, list_elem_of_here.
  - do 2 apply list_elem_of_further. apply list_elem_of_here.
Qed.

(** X1. The constructor resolves the activation and nothing else: with a
    known activation it returns a model whatever the optimizer and loss
    names are, and a name outside its table is found only later, when
    [configure_optimizers] or [get_loss_function] looks it up. *)
Theorem constructor_checks_activation_only (n : Z) (a o l : string) :
  0 <= n ->
  a ∈ activation_keys ->
  exists self,
    LightningModel_init n (Some (PyStr a)) (Some (PyStr o)) (Some (PyStr l)) = Ok self /\
    optimizer_name self = PyStr o /\
    loss_name self = PyStr l /\
    (returns (configure_optimizers self) <-> o ∈ optimizer_keys) /\
    (returns (get_loss_function self) <-> l ∈ loss_keys) /\
    (o ∉ optimizer_keys -> configure_optimizers self = Raise (KeyError (PyStr o))) /\
    (l ∉ loss_keys -> get_loss_function self = Raise (KeyError (PyStr l))).
Proof.
  intros Hpos Ha.
  destruct (LightningModel_init_known n a (Some (PyStr o)) (Some (PyStr l)) Hpos Ha)
    as (A & self & _ & Hinit & Hself).
  assert (Ho : optimizer_name self = PyStr o) by (rewrite Hself; reflexivity).
  assert (Hl : loss_name self = PyStr l) by (rewrite Hself; reflexivity).
  assert (Hp : has_parameters (model self) = true) by (rewrite Hself; reflexivity).
  clear Hself. exists self. split; [ exact Hinit | ].
  split; [ exact Ho | ]. split; [ exact Hl | ].
  unfold configure_optimizers.
  split; [ | split; [ | split ] ].
  - split.
    + intros Hr. destruct (decide (o ∈ optimizer_keys)) as [ | Hn ]; [ done | ].
      rewrite (get_optimizer_unknown self o Hp Ho Hn) in Hr.
      by apply returns_Raise in Hr.
    + intros Hin.
      destruct (get_optimizer_known self o Hp Ho Hin) as [[_ ->] | [_ ->]];
        apply returns_Ok.
  - split.
    + intros Hr. destruct (decide (l ∈ loss_keys)) as [ | Hn ]; [ done | ].
      rewrite (get_loss_function_unknown self l Hl Hn) in Hr.
      by apply returns_Raise in Hr.
    + intros Hin.
      destruct (get_loss_function_known self l Hl Hin) as (L & _ & ->).
      apply returns_Ok.
  - intros Hn. by apply get_optimizer_unknown.
  - intros Hn. by apply get_loss_function_unknown.
Qed.

Lemma constructor_checks_activation_only_witness :
  "PReLU" ∈ activation_keys /\
  exists self,
    LightningModel_init 8 (Some (PyStr "PReLU")) (Some (PyStr "SGD")) (Some (PyStr "MSE"))
      = Ok self /\
    configure_optimizers self = Raise (KeyError (PyStr "SGD")) /\
    returns (get_loss_function self).
Proof.
  assert (Hk : "PReLU" ∈ activation_keys)
    by apply list_elem_of_further, list_elem_of_here.
  split; [ exact Hk | ].
  destruct (constructor_checks_activation_only 8 "PReLU" "SGD" "MSE" ltac:(lia) Hk)
    as (self & Hinit & _ & _ & _ & Hloss & Hopt & _).
  exists self. split; [ exact Hinit | ]. split.
  - apply Hopt. intros H.
    repeat (apply elem_of_cons in H; destruct H as [H | H]); try discriminate H.
    by apply elem_of_nil in H.
  - apply Hloss. apply list_elem_of_here.
Defined.

(** X2. The optimizer is bound to the model the constructor built: for a
    known activation and a known optimizer name, [configure_optimizers]
    returns Adam or AdamW, as named, over the seven layers of the model and
    with learning rate 0.001. *)
Theorem optimizer_bound_to_built_model (n : Z) (a o : string) (l : option PyValue) :
  0 <= n ->
  a ∈ activation_keys ->
  o ∈ optimizer_keys ->
  exists A self,
    (a, A) ∈ activation_table /\
    LightningModel_init n (Some (PyStr a)) (Some (PyStr o)) l = Ok self /\
    model self = regressor n (n / 2) (n / 2 / 2) A /\
    ((o = "Adam" /\
      configure_optimizers self = Ok (Adam (regressor n (n / 2) (n / 2 / 2) A) (1 # 1000))) \/
     (o = "AdamW" /\
      configure_optimizers self = Ok (AdamW (regressor n (n / 2) (n / 2 / 2) A) (1 # 1000)))).
Proof.
  intros Hpos Ha Ho.
  destruct (LightningModel_init_known n a (Some (PyStr o)) l Hpos Ha)
    as (A & self & HA & Hinit & Hself).
  assert (Hn : optimizer_name self = PyStr o) by (rewrite Hself; reflexivity).
  assert (Hm : model self = regressor n (n / 2) (n / 2 / 2) A)
    by (rewrite Hself; reflexivity).
  assert (Hp : has_parameters (model self) = true) by (rewrite Hm; reflexivity).
  clear Hself. exists A, self. split; [ exact HA | ]. split; [ exact Hinit | ].
  split; [ exact Hm | ]. unfold configure_optimizers. rewrite <- Hm.
  destruct (get_optimizer_known self o Hp Hn Ho) as [[-> H] | [-> H]];
    [ left | right ]; (split; [ reflexivity | exact H ]).
Qed.

Lemma optimizer_bound_to_built_model_witness :
  "ELU" ∈ activation_keys /\ "AdamW" ∈ optimizer_keys /\
  exists A self,
    ("ELU", A) ∈ activation_table /\
    LightningModel_init 12 (Some (PyStr "ELU")) (Some (PyStr "AdamW")) None = Ok self /\
    model self = regressor 12 (12 / 2) (12 / 2 / 2) A /\
    (("AdamW" = "Adam" /\
      configure_optimizers self =
        Ok (Adam (regressor 12 (12 / 2) (12 / 2 / 2) A) (1 # 1000))) \/
     ("AdamW" = "AdamW" /\
      configure_optimizers self =
        Ok (AdamW (regressor 12 (12 / 2) (12 / 2 / 2) A) (1 # 1000)))).
Proof.
  assert (Ha : "ELU" ∈ activation_keys)
    by (do 2 apply list_elem_of_further; apply list_elem_of_here).
  assert (Ho : "AdamW" ∈ optimizer_keys)
    by apply list_elem_of_further, list_elem_of_here.
  split; [ exact Ha | ]. split; [ exact Ho | ].
  exact (optimizer_bound_to_built_model 12 "ELU" "AdamW" None ltac:(lia) Ha Ho).
Defined.

(** ** The forward pass *)

Lemma regressor_shape_mismatch (n h h2 d : Z) (a : Module) :
  d <> n -> Sequential_shape (regressor n h h2 a) d = Raise RuntimeError.
Proof.
  intros Hd. unfold regressor. cbn [Sequential_shape Module_shape].
  destruct (Z.eqb_spec d n) as [ | _ ]; [ done | reflexivity ].
Qed.

(** X3. A model built for [n] features takes inputs of width [n] to one
    prediction and refuses every other width. *)
Theorem forward_accepts_only_num_features (n : Z) (a : string) (o l : option PyValue) :
  0 <= n ->
  a ∈ activation_keys ->
  exists self,
    LightningModel_init n (Some (PyStr a)) o l = Ok self /\
    forward self n = Ok 1 /\
    forall d, d <> n -> forward self d = Raise RuntimeError.
Proof.
  intros Hn Ha.
  destruct (LightningModel_init_known n a o l Hn Ha) as (A & self & HA & Hinit & ->).
  eexists. split; [ exact Hinit | ]. unfold forward. cbn [model]. split.
  - apply regressor_shape. by eapply activation_table_modules.
  - intros d Hd. by apply regressor_shape_mismatch.
Qed.

Lemma forward_accepts_only_num_features_witness :
  "ReLU" ∈ activation_keys /\
  exists self,
    LightningModel_init 6 (Some (PyStr "ReLU")) None None = Ok self /\
    forward self 6 = Ok 1 /\
    forall d, d <> 6 -> forward self d = Raise RuntimeError.
Proof.
  assert (Ha : "ReLU" ∈ activation_keys) by apply list_elem_of_here.
  split; [ exact Ha | ].
  exact (forward_accepts_only_num_features 6 "ReLU" None None ltac:(lia) Ha).
Defined.

(** X4. The hidden layers are non-degenerate exactly from four features on:
    the first hidden width is at least 1 exactly when [n >= 2], the second
    exactly when [n >= 4], and the widths never grow from one layer to the
    next. *)
Theorem hidden_widths_positive (n : Z) (a o l : string) (m0 : Sequential) :
  0 <= n ->
  a ∈ activation_keys ->
  exists h h2 A,
    build_model (named n a o l m0) = Ok (regressor n h h2 A) /\
    (1 <= h <-> 2 <= n) /\
    (1 <= h2 <-> 4 <= n) /\
    0 <= h2 <= h /\ h <= n.
Proof.
  intros Hn Ha.
  destruct (build_model_known (named n a o l m0) a Hn eq_refl Ha) as (A & _ & Hb).
  exists (n / 2), (n / 2 / 2), A. cbn [num_features named] in Hb.
  split; [ exact Hb | ].
  repeat split; intros; Z.div_mod_to_equations; lia.
Qed.

Lemma hidden_widths_positive_witness :
  "ReLU" ∈ activation_keys /\
  exists h h2 A,
    build_model (named 4 "ReLU" "Adam" "MSE" []) = Ok (regressor 4 h h2 A) /\
    (1 <= h <-> 2 <= 4) /\
    (1 <= h2 <-> 4 <= 4) /\
    0 <= h2 <= h /\ h <= 4.
Proof.
  assert (Ha : "ReLU" ∈ activation_keys) by apply list_elem_of_here.
  split; [ exact Ha | ].
  exact (hidden_widths_positive 4 "ReLU" "Adam" "MSE" [] ltac:(lia) Ha).
Defined.

(** ** Training and validation steps *)

Lemma broadcast_same (s : Shape) : broadcast s s = Ok s.
Proof.
  unfold broadcast.
  assert (H : forall r : list Z, broadcast_rev r r = Ok r).
  { induction r as [ | x r IH ]; [ reflexivity | ].
    cbn [broadcast_rev]. rewrite IH. cbn [mbind result_bind].
    by rewrite Z.eqb_refl. }
  rewrite H. cbn [mbind result_bind]. by rewrite reverse_involutive.
Qed.

Lemma forward_tensor_batch (self : LightningModel) (B d d' : Z) :
  forward self d = Ok d' -> forward_tensor self [B; d] = Ok [B; d'].
Proof. intros H. unfold forward_tensor. cbn [last removelast]. by rewrite H. Qed.

Lemma forward_tensor_batch_fails (self : LightningModel) (B d : Z) (e : PyError) :
  forward self d = Raise e -> forward_tensor self [B; d] = Raise e.
Proof. intros H. unfold forward_tensor. cbn [last removelast]. by rewrite H. Qed.

(** X5. On a batch of [B] samples of [n] features and [B] targets, each step
    of a model built for [n] features compares a prediction of shape
    [(B, 1)] with a target of the same shape, so the loss never broadcasts;
    it applies the loss the model's name stands for, and the training step
    logs it as [train_loss], the validation step as [val_loss]. *)
Theorem steps_compare_equal_shapes (n B : Z) (a l : string) (o : option PyValue) :
  0 <= n ->
  0 < B ->
  a ∈ activation_keys ->
  l ∈ loss_keys ->
  exists self L,
    LightningModel_init n (Some (PyStr a)) o (Some (PyStr l)) = Ok self /\
    (l, L) ∈ loss_table /\
    forall batch_idx,
      training_step self ([B; n], [B]) batch_idx =
        Ok {| prediction := [B; 1]; target := [B; 1]; compared := [B; 1];
              criterion := L; logged := "train_loss" |} /\
      validation_step self ([B; n], [B]) batch_idx =
        Ok {| prediction := [B; 1]; target := [B; 1]; compared := [B; 1];
              criterion := L; logged := "val_loss" |}.
Proof.
  intros Hpos _ Ha Hl.
  destruct (LightningModel_init_known n a o (Some (PyStr l)) Hpos Ha)
    as (A & self & HA & Hinit & Hself).
  assert (Hf : forward self n = Ok 1).
  { rewrite Hself. unfold forward. cbn [model].
    apply regressor_shape. by eapply activation_table_modules. }
  assert (Hn : loss_name self = PyStr l) by (rewrite Hself; reflexivity).
  clear Hself.
  destruct (get_loss_function_known self l Hn Hl) as (L & HL & Hg).
  exists self, L. split; [ exact Hinit | ]. split; [ exact HL | ].
  intros batch_idx. unfold training_step, validation_step.
  rewrite (forward_tensor_batch self B n 1 Hf), Hg.
  cbn [mbind result_bind unsqueeze1]. rewrite broadcast_same.
  split; reflexivity.
Qed.

Lemma steps_compare_equal_shapes_witness :
  "ReLU" ∈ activation_keys /\ "MAE" ∈ loss_keys /\
  exists self L,
    LightningModel_init 20 (Some (PyStr "ReLU")) None (Some (PyStr "MAE")) = Ok self /\
    ("MAE", L) ∈ loss_table /\
    forall batch_idx,
      training_step self ([1024; 20], [1024]) batch_idx =
        Ok {| prediction := [1024; 1]; target := [1024; 1]; compared := [1024; 1];
              criterion := L; logged := "train_loss" |} /\
      validation_step self ([1024; 20], [1024]) batch_idx =
        Ok {| prediction := [1024; 1]; target := [1024; 1]; compared := [1024; 1];
              criterion := L; logged := "val_loss" |}.
Proof.
  assert (Ha : "ReLU" ∈ activation_keys) by apply list_elem_of_here.
  assert (Hl : "MAE" ∈ loss_keys)
    by (do 2 apply list_elem_of_further; apply list_elem_of_here).
  split; [ exact Ha | ]. split; [ exact Hl | ].
  exact (steps_compare_equal_shapes 20 1024 "ReLU" "MAE" None ltac:(lia) ltac:(lia) Ha Hl).
Defined.

(** X6. How a step fails. A batch whose samples do not have [n] features is
    refused by the forward pass, before the loss is looked up; with samples
    of [n] features, a loss name outside the table raises [KeyError] on
    that name in every step; and with a known loss a target without
    dimensions is refused by [unsqueeze(1)]. *)
Theorem step_failures (n : Z) (a l : string) (o : option PyValue) :
  0 <= n ->
  a ∈ activation_keys ->
  exists self,
    LightningModel_init n (Some (PyStr a)) o (Some (PyStr l)) = Ok self /\
    (forall (B d : Z) (y : Shape) batch_idx,
       d <> n ->
       training_step self ([B; d], y) batch_idx = Raise RuntimeError /\
       validation_step self ([B; d], y) batch_idx = Raise RuntimeError) /\
    (l ∉ loss_keys ->
     forall (B : Z) (y : Shape) batch_idx,
       training_step self ([B; n], y) batch_idx = Raise (KeyError (PyStr l)) /\
       validation_step self ([B; n], y) batch_idx = Raise (KeyError (PyStr l))) /\
    (l ∈ loss_keys ->
     forall (B : Z) batch_idx,
       training_step self ([B; n], []) batch_idx = Raise IndexError /\
       validation_step self ([B; n], []) batch_idx = Raise IndexError).
Proof.
  intros Hpos Ha.
  destruct (LightningModel_init_known n a o (Some (PyStr l)) Hpos Ha)
    as (A & self & HA & Hinit & Hself).
  assert (Hf : forward self n = Ok 1).
  { rewrite Hself. unfold forward. cbn [model].
    apply regressor_shape. by eapply activation_table_modules. }
  assert (Hbad : forall d, d <> n -> forward self d = Raise RuntimeError).
  { intros d Hd. rewrite Hself. unfold forward. cbn [model].
    by apply regressor_shape_mismatch. }
  assert (Hn : loss_name self = PyStr l) by (rewrite Hself; reflexivity).
  clear Hself. exists self. split; [ exact Hinit | ].
  split; [ | split ].
  - intros B d y batch_idx Hd. unfold training_step, validation_step.
    rewrite (forward_tensor_batch_fails self B d _ (Hbad d Hd)).
    split; reflexivity.
  - intros Hl B y batch_idx. unfold training_step, validation_step.
    rewrite (forward_tensor_batch self B n 1 Hf).
    rewrite (get_loss_function_unknown self l Hn Hl).
    split; reflexivity.
  - intros Hl B batch_idx. unfold training_step, validation_step.
    rewrite (forward_tensor_batch self B n 1 Hf).
    destruct (get_loss_function_known self l Hn Hl) as (L & _ & ->).
    split; reflexivity.
Qed.

Lemma step_failures_witness :
  "ELU" ∈ activation_keys /\
  exists self,
    LightningModel_init 20 (Some (PyStr "ELU")) None (Some (PyStr "Huber")) = Ok self /\
    training_step self ([32; 19], [32]) 0 = Raise RuntimeError /\
    validation_step self ([32; 20], [32]) 0 = Raise (KeyError (PyStr "Huber")).
Proof.
  assert (Ha : "ELU" ∈ activation_keys)
    by (do 2 apply list_elem_of_further; apply list_elem_of_here).
  split; [ exact Ha | ].
  destruct (step_failures 20 "ELU" "Huber" None ltac:(lia) Ha) as (self & Hinit & Hw & Hk & _).
  exists self. split; [ exact Hinit | ]. split.
  - apply (Hw 32 19 [32] 0%nat). lia.
  - apply (Hk ltac:(intros H;
        repeat (apply elem_of_cons in H; destruct H as [H | H]);
        try discriminate H; by apply elem_of_nil in H) 32 [32] 0%nat).
Defined.

(** ** The training function *)

Lemma lookup_key_absent {V} (d : gmap string V) (k : string) :
  d !! k = None -> lookup_key d k = Raise (KeyError (PyStr k)).
Proof. apply getitem_absent. Qed.

(** X7. A configuration that lacks one of the three entries the training
    function reads makes it raise [KeyError] on the first one missing, in the
    order activation, optimizer, loss_function, before any model is
    built. *)
Theorem train_model_tune_missing_key (isatty : bool) (c : Config) (num_features : Z)
    (train val : DataLoader) (max_epochs : option Z) :
  (c !! "activation" = None ->
     train_model_tune isatty c num_features train val max_epochs =
       Raise (KeyError (PyStr "activation"))) /\
  (is_Some (c !! "activation") -> c !! "optimizer" = None ->
     train_model_tune isatty c num_features train val max_epochs =
       Raise (KeyError (PyStr "optimizer"))) /\
  (is_Some (c !! "activation") -> is_Some (c !! "optimizer") ->
   c !! "loss_function" = None ->
     train_model_tune isatty c num_features train val max_epochs =
       Raise (KeyError (PyStr "loss_function"))).
Proof.
  unfold train_model_tune, train_model_tune_with. split; [ | split ].
  - intros Ha. by rewrite (lookup_key_absent c "activation" Ha).
  - intros [a Ha] Ho.
    by rewrite (lookup_key_present c "activation" a Ha),
      (lookup_key_absent c "optimizer" Ho).
  - intros [a Ha] [o Ho] Hl.
    by rewrite (lookup_key_present c "activation" a Ha),
      (lookup_key_present c "optimizer" o Ho),
      (lookup_key_absent c "loss_function" Hl).
Qed.

Lemma train_model_tune_missing_key_witness :
  train_model_tune true {[ "activation" := PyStr "ReLU"; "loss_function" := PyStr "MSE" ]}
    10 {| dataset := {| features := []; labels := [] |}; batch_size := 1024;
          shuffle := true; num_workers := 4 |}
    {| dataset := {| features := []; labels := [] |}; batch_size := 1024;
       shuffle := false; num_workers := 4 |} None
  = Raise (KeyError (PyStr "optimizer")).
Proof.
  apply train_model_tune_missing_key.
  - by exists (PyStr "ReLU").
  - reflexivity.
Defined.

(** X8. The training function depends on the trial configuration through
    three entries only: two configurations that agree on activation,
    optimizer and loss_function lead to the same outcome, whatever else
    they hold. *)
Theorem train_model_tune_reads_three_keys (isatty : bool) (c c' : Config)
    (num_features : Z) (train val : DataLoader) (max_epochs : option Z) :
  c !! "activation" = c' !! "activation" ->
  c !! "optimizer" = c' !! "optimizer" ->
  c !! "loss_function" = c' !! "loss_function" ->
  train_model_tune isatty c num_features train val max_epochs =
  train_model_tune isatty c' num_features train val max_epochs.
Proof.
  intros Ha Ho Hl. unfold train_model_tune, train_model_tune_with, lookup_key, getitem.
  by rewrite Ha, Ho, Hl.
Qed.

Lemma train_model_tune_reads_three_keys_witness :
  train_model_tune false (trial "Adam" "MSE" "Tanh" 20 5) 10
    {| dataset := {| features := []; labels := [] |}; batch_size := 1024;
       shuffle := true; num_workers := 4 |}
    {| dataset := {| features := []; labels := [] |}; batch_size := 1024;
       shuffle := false; num_workers := 4 |} None
  = train_model_tune false
      {[ "activation" := PyStr "Tanh"; "optimizer" := PyStr "Adam";
         "loss_function" := PyStr "MSE"; "seed" := PyInt 7 ]} 10
      {| dataset := {| features := []; labels := [] |}; batch_size := 1024;
         shuffle := true; num_workers := 4 |}
      {| dataset := {| features := []; labels := [] |}; batch_size := 1024;
         shuffle := false; num_workers := 4 |} None.
Proof. apply train_model_tune_reads_three_keys; reflexivity. Defined.

(** X9. The training function never reaches [trainer.fit]: for every
    configuration and every other argument it raises, and when the three
    entries are present and the activation is one of the table's keys, what
    it raises is the refusal of the checkpoint callback, whatever the
    optimizer and loss names are. *)
Theorem train_model_tune_never_fits (isatty : bool) (c : Config) (num_features : Z)
    (train val : DataLoader) (max_epochs : option Z) :
  raises (train_model_tune isatty c num_features train val max_epochs) /\
  (forall (a : string) (o l : PyValue),
     0 <= num_features ->
     c !! "activation" = Some (PyStr a) ->
     c !! "optimizer" = Some o ->
     c !! "loss_function" = Some l ->
     a ∈ activation_keys ->
     train_model_tune isatty c num_features train val max_epochs =
       Raise MisconfigurationException).
Proof.
  split.
  - unfold train_model_tune, train_model_tune_with.
    destruct (lookup_key c "activation") as [ a | e ]; [ | by exists e ].
    destruct (lookup_key c "optimizer") as [ o | e ]; [ | by exists e ].
    destruct (lookup_key c "loss_function") as [ l | e ]; [ | by exists e ].
    cbn [mbind result_bind].
    destruct (LightningModel_init num_features (Some a) (Some o) (Some l))
      as [ m | e ]; [ | by exists e ].
    by exists MisconfigurationException.
  - intros a o l Hn Ha Ho Hl Hk. by eapply train_model_tune_refused.
Qed.

Lemma train_model_tune_never_fits_witness :
  train_model_tune true (trial "SGD" "Huber" "PReLU" 30 10) 10
    {| dataset := {| features := []; labels := [] |}; batch_size := 1024;
       shuffle := true; num_workers := 4 |}
    {| dataset := {| features := []; labels := [] |}; batch_size := 1024;
       shuffle := false; num_workers := 4 |} (Some 5)
  = Raise MisconfigurationException.
Proof.
  apply (train_model_tune_never_fits true (trial "SGD" "Huber" "PReLU" 30 10))
    with (a := "PReLU") (o := PyStr "SGD") (l := PyStr "Huber");
    try reflexivity; try lia.
  apply list_elem_of_further, list_elem_of_here.
Defined.

(** ** Features and target *)

Section Frames.

Local Open Scope nat_scope.
Local Open Scope list_scope.

Lemma column_index_present (name : string) (cols : list string) :
  name ∈ cols ->
  exists i, column_index name cols = Some i /\ cols !! i = Some name.
Proof.
  induction cols as [ | c cols IH ]; intros Hin; [ by apply elem_of_nil in Hin | ].
  cbn [column_index]. destruct (String.eqb_spec name c) as [-> | Hne].
  - by exists 0.
  - apply elem_of_cons in Hin. destruct Hin as [ | Hin ]; [ done | ].
    destruct (IH Hin) as (i & -> & Hi). by exists (S i).
Qed.

Lemma delete_not_elem_of (name : string) (cols : list string) (i : nat) :
  NoDup cols -> cols !! i = Some name -> name ∉ delete i cols.
Proof.
  intros Hnd Hi Hin. apply list_elem_of_lookup in Hin. destruct Hin as [j Hj].
  destruct (Nat.lt_ge_cases j i) as [Hlt | Hge].
  - rewrite list_lookup_delete_lt in Hj by exact Hlt.
    pose proof (NoDup_lookup _ _ _ _ Hnd Hi Hj). lia.
  - rewrite list_lookup_delete_ge in Hj by exact Hge.
    pose proof (NoDup_lookup _ _ _ _ Hnd Hi Hj). lia.
Qed.

Lemma with_cell_delete (i : nat) (row : list Q) :
  i < length row -> with_cell i (nth i row 0%Q) (delete i row) = row.
Proof.
  intros Hi. unfold with_cell.
  destruct (lookup_lt_is_Some_2 row i Hi) as [x Hx].
  rewrite (nth_lookup_Some _ _ _ _ Hx), delete_take_drop.
  rewrite take_app_length' by (rewrite length_take; lia).
  rewrite drop_app_length' by (rewrite length_take; lia).
  by apply take_drop_middle.
Qed.

Lemma with_cell_rows (i : nat) (rs : list (list Q)) :
  Forall (fun r => i < length r) rs ->
  zip_with (with_cell i) ((fun r => nth i r 0%Q) <$> rs) ((fun r => delete i r) <$> rs) = rs.
Proof.
  induction 1 as [ | r rs Hr _ IH ]; [ reflexivity | ].
  cbn. rewrite IH. f_equal. by apply with_cell_delete.
Qed.

End Frames.

(** X10. Separating the target from the features loses nothing and leaks
    nothing. For a frame with distinct column names, one cell per column in
    every row and a column [name], [df[name]] and [df.drop(columns=[name])]
    both return; the features no longer have a column [name], they have one
    column less and as many rows, every row still has one cell per column,
    and putting each target cell back at the column's position gives the
    rows of the frame. *)
Theorem target_separated (df : DataFrame) (name : string) :
  NoDup (columns df) ->
  name ∈ columns df ->
  Forall (fun r => length r = length (columns df)) (rows df) ->
  exists i y X,
    columns df !! i = Some name /\
    DataFrame_getitem df name = Ok y /\
    DataFrame_drop df name = Ok X /\
    (name ∉ columns X) /\
    columns df = (take i (columns X) ++ name :: drop i (columns X))%list /\
    S (length (columns X)) = length (columns df) /\
    length y = length (rows df) /\
    length (rows X) = length (rows df) /\
    Forall (fun r => length r = length (columns X)) (rows X) /\
    zip_with (with_cell i) y (rows X) = rows df.
Proof.
  intros Hnd Hin Hrows.
  destruct (column_index_present name (columns df) Hin) as (i & Hci & Hi).
  assert (Hlt : (i < length (columns df))%nat) by (by eapply lookup_lt_Some).
  exists i, ((fun r => nth i r 0%Q) <$> rows df),
    {| columns := delete i (columns df);
       rows := (fun r => delete i r) <$> rows df |}.
  unfold DataFrame_getitem, DataFrame_drop. rewrite Hci. cbn [columns rows].
  split; [ exact Hi | ]. split; [ reflexivity | ]. split; [ reflexivity | ].
  split; [ by apply delete_not_elem_of | ].
  split.
  { rewrite delete_take_drop.
    rewrite take_app_length' by (rewrite length_take; lia).
    rewrite drop_app_length' by (rewrite length_take; lia).
    symmetry. by apply take_drop_middle. }
  assert (Hlen : S (length (delete i (columns df))) = length (columns df)).
  { rewrite length_delete by (by exists name). lia. }
  split; [ exact Hlen | ].
  split; [ by rewrite length_fmap | ]. split; [ by rewrite length_fmap | ].
  split.
  - apply Forall_fmap. eapply Forall_impl; [ exact Hrows | ].
    intros r Hr. unfold compose. cbn beta in *. cbn [columns].
    rewrite length_delete by (apply lookup_lt_is_Some_2; lia). lia.
  - apply with_cell_rows. eapply Forall_impl; [ exact Hrows | ].
    intros r Hr. cbn beta in *. lia.
Qed.

Lemma target_separated_witness :
  exists i y X,
    DataFrame_getitem {| columns := ["cpu"; "perf"; "mem"];
                         rows := [[1; 2; 3]%Q; [4; 5; 6]%Q] |} "perf" = Ok y /\
    DataFrame_drop {| columns := ["cpu"; "perf"; "mem"];
                      rows := [[1; 2; 3]%Q; [4; 5; 6]%Q] |} "perf" = Ok X /\
    ("perf" ∉ columns X) /\
    zip_with (with_cell i) y (rows X) = [[1; 2; 3]%Q; [4; 5; 6]%Q].
Proof.
  destruct (target_separated {| columns := ["cpu"; "perf"; "mem"];
                                rows := [[1; 2; 3]%Q; [4; 5; 6]%Q] |} "perf")
    as (i & y & X & _ & Hy & HX & Hn & _ & _ & _ & _ & _ & Hz).
  - cbn [columns]. repeat (apply NoDup_cons; split);
      [ | | | apply NoDup_nil_2 ];
      intros H; repeat (apply elem_of_cons in H; destruct H as [H | H]);
      try discriminate H; by apply elem_of_nil in H.
  - cbn [columns]. apply list_elem_of_further, list_elem_of_here.
  - cbn [columns rows]. repeat constructor.
  - exists i, y, X. split; [ exact Hy | ]. split; [ exact HX | ].
    split; [ exact Hn | exact Hz ].
Defined.

(** ** What preparation hands to the driver *)

Section Prepared.

Local Open Scope nat_scope.
Local Open Scope list_scope.

Variable permutation : Z -> nat -> list nat.
Hypothesis permutation_seq : forall seed n, permutation seed n ≡ₚ seq 0 n.

Lemma train_test_split_sizes {A B} (X : list A) (y : list B) :
  length y = length X ->
  2 <= length X ->
  exists X_train X_test y_train y_test,
    train_test_split permutation X y (2 # 10) 42 = Ok (X_train, X_test, y_train, y_test) /\
    length y_train = length X_train /\
    length y_test = length X_test /\
    length X_train + length X_test = length X /\
    length X <= 5 * length X_test < length X + 5.
Proof.
  intros Hy Hn.
  destruct (split_indices_partition permutation permutation_seq (length X) Hn)
    as (ind_train & ind_test & Hsplit & Hp & Hlen & Hfifth).
  destruct (take_rows_partition X ind_train ind_test Hp)
    as (HXtr & HXte & HlXtr & HlXte & _).
  assert (Hp' : ind_train ++ ind_test ≡ₚ seq 0 (length y)) by (by rewrite Hy).
  destruct (take_rows_partition y ind_train ind_test Hp')
    as (Hytr & Hyte & Hlytr & Hlyte & _).
  exists (omap (fun i => X !! i) ind_train), (omap (fun i => X !! i) ind_test).
  exists (omap (fun i => y !! i) ind_train), (omap (fun i => y !! i) ind_test).
  split.
  { unfold train_test_split. rewrite Hy, Nat.eqb_refl. cbn [negb].
    rewrite Hsplit. cbn [mbind result_bind].
    rewrite HXtr, HXte, Hytr, Hyte. reflexivity. }
  repeat split; lia.
Qed.

Lemma prepare_Ok (cpu_count : Z) (df : DataFrame) (draw : list nat) :
  "perf" ∈ columns df ->
  length draw = 1500 ->
  Forall (fun i => i < length (rows df)) draw ->
  1500 <= length (rows df) ->
  exists i X_train X_test y_train y_test,
    columns df !! i = Some "perf" /\
    prepare permutation cpu_count (Ok df) draw =
      Ok {| X := {| columns := delete i (columns df);
                    rows := (fun r => delete i r)
                              <$> omap (fun j => rows df !! j) draw |};
            train_dataloader :=
              {| dataset := {| features := X_train; labels := y_train |};
                 batch_size := 1024; shuffle := true;
                 num_workers := Z.min 8 cpu_count |};
            test_dataloader :=
              {| dataset := {| features := X_test; labels := y_test |};
                 batch_size := 1024; shuffle := false;
                 num_workers := Z.min 8 cpu_count |} |} /\
    length X_train = 1200 /\ length y_train = 1200 /\
    length X_test = 300 /\ length y_test = 300.
Proof.
  intros Hin Hdraw Hrange Hrows.
  destruct (column_index_present "perf" (columns df) Hin) as (i & Hci & Hi).
  destruct (take_rows_Ok (rows df) draw Hrange) as [Htake Hlen].
  set (rs := omap (fun j => rows df !! j) draw) in *.
  assert (Hrs : length rs = 1500) by lia.
  destruct (train_test_split_sizes ((fun r => delete i r) <$> rs)
              ((fun r => nth i r 0%Q) <$> rs))
    as (X_train & X_test & y_train & y_test & Hsplit & H1 & H2 & H3 & H4).
  { by rewrite !length_fmap. }
  { rewrite length_fmap. lia. }
  rewrite length_fmap in H3, H4.
  exists i, X_train, X_test, y_train, y_test.
  split; [ exact Hi | ]. split; [ | lia ].
  unfold prepare. cbn [mbind result_bind]. unfold astype_float32, DataFrame_sample.
  destruct (Nat.leb_spec 1500 (length (rows df))) as [ _ | ]; [ | lia ].
  rewrite Htake. cbn [mbind result_bind].
  unfold DataFrame_getitem, DataFrame_drop. cbn [columns rows].
  rewrite Hci. cbn [mbind result_bind rows columns].
  rewrite Hsplit. reflexivity.
Qed.

End Prepared.

(** X11. On a frame with distinct column names, a column [perf] and at
    least 1500 rows, preparation returns: the features keep every column
    but [perf], so the feature count handed to the driver is the column
    count less one; the subsample has 1500 rows; the training dataset holds
    1200 samples and the evaluation dataset 300, each with as many labels
    as feature vectors. *)
Theorem prepare_sizes (permutation : Z -> nat -> list nat) (cpu_count : Z)
    (df : DataFrame) (draw : list nat) :
  (forall seed n, permutation seed n ≡ₚ seq 0 n) ->
  NoDup (columns df) ->
  "perf" ∈ columns df ->
  length draw = 1500%nat ->
  Forall (fun i => (i < length (rows df))%nat) draw ->
  (1500 <= length (rows df))%nat ->
  exists p,
    prepare permutation cpu_count (Ok df) draw = Ok p /\
    ("perf" ∉ columns (X p)) /\
    (forall c, c <> "perf" -> c ∈ columns df -> c ∈ columns (X p)) /\
    shape1 (X p) = Z.of_nat (length (columns df)) - 1 /\
    length (rows (X p)) = 1500%nat /\
    CustomDataset_len (dataset (train_dataloader p)) = 1200%nat /\
    length (labels (dataset (train_dataloader p))) = 1200%nat /\
    CustomDataset_len (dataset (test_dataloader p)) = 300%nat /\
    length (labels (dataset (test_dataloader p))) = 300%nat.
Proof.
  intros Hperm Hnd Hin Hdraw Hrange Hrows.
  destruct (prepare_Ok permutation Hperm cpu_count df draw Hin Hdraw Hrange Hrows)
    as (i & X_train & X_test & y_train & y_test & Hi & Hprep & H1 & H2 & H3 & H4).
  eexists. split; [ exact Hprep | ].
  cbn [X train_dataloader test_dataloader dataset columns rows labels features
       CustomDataset_len].
  unfold CustomDataset_len. cbn [features].
  split; [ by apply delete_not_elem_of | ].
  split.
  { intros c Hc Hcin. apply list_elem_of_lookup in Hcin. destruct Hcin as [j Hj].
    apply list_elem_of_lookup.
    destruct (Nat.lt_ge_cases j i) as [Hlt | Hge].
    - exists j. by rewrite list_lookup_delete_lt.
    - assert (j <> i) by (intros ->; congruence).
      exists (pred j). rewrite list_lookup_delete_ge by lia.
      by replace (S (pred j)) with j by lia. }
  split.
  { unfold shape1. cbn [columns].
    rewrite length_delete by (by exists "perf").
    assert (i < length (columns df))%nat by (by eapply lookup_lt_Some). lia. }
  split.
  { rewrite length_fmap.
    destruct (take_rows_Ok (rows df) draw Hrange) as [_ ->]. exact Hdraw. }
  repeat split; assumption.
Qed.

Lemma prepare_sizes_witness :
  exists p,
    prepare (fun _ n => rev (seq 0 n)) 16
      (Ok {| columns := ["cpu"; "mem"; "perf"];
             rows := replicate 2000 [1%Q; 2%Q; 3%Q] |}) (seq 0 1500) = Ok p /\
    shape1 (X p) = 2 /\
    CustomDataset_len (dataset (train_dataloader p)) = 1200%nat /\
    CustomDataset_len (dataset (test_dataloader p)) = 300%nat.
Proof.
  destruct (prepare_sizes (fun _ n => rev (seq 0 n)) 16
              {| columns := ["cpu"; "mem"; "perf"];
                 rows := replicate 2000 [1%Q; 2%Q; 3%Q] |} (seq 0 1500))
    as (p & Hp & _ & _ & Hs & _ & Htr & _ & Hte & _).
  - intros seed n. apply Permutation_sym, Permutation_rev.
  - cbn [columns]. repeat (apply NoDup_cons; split);
      [ | | | apply NoDup_nil_2 ];
      intros H; repeat (apply elem_of_cons in H; destruct H as [H | H]);
      try discriminate H; by apply elem_of_nil in H.
  - cbn [columns]. do 2 apply list_elem_of_further. apply list_elem_of_here.
  - apply length_seq.
  - cbn [rows]. rewrite length_replicate. apply Forall_forall.
    intros i Hi. apply elem_of_seq in Hi. lia.
  - cbn [rows]. rewrite length_replicate. lia.
  - exists p. split; [ exact Hp | ]. split; [ exact Hs | ]. split; assumption.
Defined.

(** ** Passes over the script's loaders *)

Section Passes.

Local Open Scope nat_scope.
Local Open Scope list_scope.

Lemma two_batches (dl : DataLoader) (draw : list nat) :
  batch_size dl = 1024 ->
  CustomDataset_len (dataset dl) = 1200 ->
  length (labels (dataset dl)) = 1200 ->
  draw ≡ₚ seq 0 1200 ->
  exists b1 b2,
    DataLoader_iter dl draw = Ok [b1; b2] /\ length b1 = 1024 /\ length b2 = 176.
Proof.
  intros HB HS Hl Hp.
  assert (Hp' : draw ≡ₚ seq 0 (CustomDataset_len (dataset dl))) by (by rewrite HS).
  rewrite (DataLoader_iter_Ok dl draw ltac:(lia) Hp').
  pose proof (BatchSampler_length (batch_size dl) (sampler dl draw) []) as Hlen.
  pose proof (BatchSampler_sizes (batch_size dl) (sampler dl draw) []) as Hsz.
  pose proof (BatchSampler_concat (batch_size dl) (sampler dl draw) []) as Hcat.
  fold (batch_indices dl draw) in Hlen, Hsz, Hcat.
  rewrite HB in Hlen, Hsz. rewrite (sampler_length dl draw Hp'), HS in Hlen.
  specialize (Hlen ltac:(lia) ltac:(cbn [length]; lia)).
  specialize (Hsz ltac:(lia) ltac:(cbn [length]; lia)).
  cbn [length] in Hlen.
  replace ((0 + 1200 + 1024 - 1) / 1024) with 2 in Hlen
    by (apply (Nat.div_unique _ _ _ 175); lia).
  assert (Htot : length (concat (batch_indices dl draw)) = 1200).
  { rewrite Hcat. cbn [app]. by rewrite (sampler_length dl draw Hp'). }
  destruct (batch_indices dl draw) as [ | b1 [ | b2 [ | b3 bs ] ] ];
    cbn [length] in Hlen; try lia.
  destruct (Hsz 0 b1 eq_refl) as [_ H1]. specialize (H1 ltac:(cbn [length]; lia)).
  cbn [concat] in Htot. rewrite !length_app in Htot. cbn [length] in Htot.
  exists (sample_at (dataset dl) <$> b1), (sample_at (dataset dl) <$> b2).
  split; [ reflexivity | ]. rewrite !length_fmap. lia.
Qed.

Lemma one_batch (dl : DataLoader) (draw : list nat) :
  batch_size dl = 1024 ->
  CustomDataset_len (dataset dl) = 300 ->
  length (labels (dataset dl)) = 300 ->
  draw ≡ₚ seq 0 300 ->
  exists b, DataLoader_iter dl draw = Ok [b] /\ length b = 300.
Proof.
  intros HB HS Hl Hp.
  assert (Hp' : draw ≡ₚ seq 0 (CustomDataset_len (dataset dl))) by (by rewrite HS).
  rewrite (DataLoader_iter_Ok dl draw ltac:(lia) Hp').
  pose proof (BatchSampler_length (batch_size dl) (sampler dl draw) []) as Hlen.
  pose proof (BatchSampler_concat (batch_size dl) (sampler dl draw) []) as Hcat.
  fold (batch_indices dl draw) in Hlen, Hcat.
  rewrite HB in Hlen. rewrite (sampler_length dl draw Hp'), HS in Hlen.
  specialize (Hlen ltac:(lia) ltac:(cbn [length]; lia)).
  cbn [length] in Hlen.
  replace ((0 + 300 + 1024 - 1) / 1024) with 1 in Hlen
    by (apply (Nat.div_unique _ _ _ 299); lia).
  assert (Htot : length (concat (batch_indices dl draw)) = 300).
  { rewrite Hcat. cbn [app]. by rewrite (sampler_length dl draw Hp'). }
  destruct (batch_indices dl draw) as [ | b1 [ | b2 bs ] ];
    cbn [length] in Hlen; try lia.
  cbn [concat] in Htot. rewrite !length_app in Htot. cbn [length] in Htot.
  exists (sample_at (dataset dl) <$> b1).
  split; [ reflexivity | ]. rewrite !length_fmap. lia.
Qed.

End Passes.

(** X12. With the loaders that preparation builds, an epoch is three
    batches: a pass over the training loader yields two batches, of 1024 and
    of 176 samples, and a pass over the evaluation loader yields one batch
    of all 300 samples. *)
Theorem script_loader_batches (permutation : Z -> nat -> list nat) (cpu_count : Z)
    (df : DataFrame) (draw train_draw test_draw : list nat) :
  (forall seed n, permutation seed n ≡ₚ seq 0 n) ->
  NoDup (columns df) ->
  "perf" ∈ columns df ->
  length draw = 1500%nat ->
  Forall (fun i => (i < length (rows df))%nat) draw ->
  (1500 <= length (rows df))%nat ->
  train_draw ≡ₚ seq 0 1200 ->
  test_draw ≡ₚ seq 0 300 ->
  exists p b1 b2 b,
    prepare permutation cpu_count (Ok df) draw = Ok p /\
    DataLoader_iter (train_dataloader p) train_draw = Ok [b1; b2] /\
    length b1 = 1024%nat /\ length b2 = 176%nat /\
    DataLoader_iter (test_dataloader p) test_draw = Ok [b] /\
    length b = 300%nat.
Proof.
  intros Hperm _ Hin Hdraw Hrange Hrows Htr Hte.
  destruct (prepare_Ok permutation Hperm cpu_count df draw Hin Hdraw Hrange Hrows)
    as (i & X_train & X_test & y_train & y_test & Hi & Hprep & H1 & H2 & H3 & H4).
  destruct (two_batches
              {| dataset := {| features := X_train; labels := y_train |};
                 batch_size := 1024; shuffle := true;
                 num_workers := Z.min 8 cpu_count |} train_draw
              eq_refl H1 H2 Htr) as (b1 & b2 & Hb & Hb1 & Hb2).
  destruct (one_batch
              {| dataset := {| features := X_test; labels := y_test |};
                 batch_size := 1024; shuffle := false;
                 num_workers := Z.min 8 cpu_count |} test_draw
              eq_refl H3 H4 Hte) as (b & Hbt & Hbl).
  eexists. exists b1, b2, b. split; [ exact Hprep | ].
  cbn [train_dataloader test_dataloader].
  split; [ exact Hb | ]. split; [ exact Hb1 | ]. split; [ exact Hb2 | ].
  split; [ exact Hbt | exact Hbl ].
Qed.

Lemma script_loader_batches_witness :
  exists p b1 b2 b,
    prepare (fun _ n => rev (seq 0 n)) 16
      (Ok {| columns := ["cpu"; "mem"; "perf"];
             rows := replicate 2000 [1%Q; 2%Q; 3%Q] |}) (seq 0 1500) = Ok p /\
    DataLoader_iter (train_dataloader p) (rev (seq 0 1200)) = Ok [b1; b2] /\
    length b1 = 1024%nat /\ length b2 = 176%nat /\
    DataLoader_iter (test_dataloader p) (seq 0 300) = Ok [b] /\
    length b = 300%nat.
Proof.
  apply (script_loader_batches (fun _ n => rev (seq 0 n)) 16
           {| columns := ["cpu"; "mem"; "perf"];
              rows := replicate 2000 [1%Q; 2%Q; 3%Q] |} (seq 0 1500)).
  - intros seed n. apply Permutation_sym, Permutation_rev.
  - cbn [columns]. repeat (apply NoDup_cons; split);
      [ | | | apply NoDup_nil_2 ];
      intros H; repeat (apply elem_of_cons in H; destruct H as [H | H]);
      try discriminate H; by apply elem_of_nil in H.
  - cbn [columns]. do 2 apply list_elem_of_further. apply list_elem_of_here.
  - apply length_seq.
  - cbn [rows]. rewrite length_replicate. apply Forall_forall.
    intros i Hi. apply elem_of_seq in Hi. lia.
  - cbn [rows]. rewrite length_replicate. lia.
  - apply Permutation_sym, Permutation_rev.
  - reflexivity.
Defined.

(** ** A dataset with too few labels *)

Section Labels.

Local Open Scope nat_scope.
Local Open Scope list_scope.

Lemma mapM_result_settles {A B} (f : A -> result B) (e : PyError) (l : list A) :
  Forall (fun x => returns (f x) \/ f x = Raise e) l ->
  returns (mapM (M := result) f l) \/ mapM (M := result) f l = Raise e.
Proof.
  induction 1 as [ | x l Hx _ IH ]; [ left; by eexists | ].
  cbn. destruct Hx as [[y ->] | ->]; [ | by right ]. cbn.
  destruct IH as [[k ->] | ->]; [ left; by eexists | by right ].
Qed.

Lemma mapM_result_raises {A B} (f : A -> result B) (e : PyError) (l : list A) :
  Forall (fun x => returns (f x) \/ f x = Raise e) l ->
  Exists (fun x => f x = Raise e) l ->
  mapM (M := result) f l = Raise e.
Proof.
  induction 1 as [ | x l Hx Hall IH ]; intros Hex; [ by apply Exists_nil in Hex | ].
  cbn. destruct Hx as [[y Hy] | ->]; [ | reflexivity ]. rewrite Hy. cbn.
  apply Exists_cons in Hex. destruct Hex as [Hbad | Hex]; [ congruence | ].
  by rewrite (IH Hex).
Qed.

Lemma getitem_settles (ds : CustomDataset) (i : nat) :
  returns (CustomDataset_getitem ds i) \/ CustomDataset_getitem ds i = Raise IndexError.
Proof.
  unfold CustomDataset_getitem.
  destruct (features ds !! i), (labels ds !! i); (left; by eexists) || by right.
Qed.

End Labels.

(** X13. The dataset takes its length from the features alone and checks
    nothing against the labels: when there are fewer labels than feature
    vectors, every position from the number of labels on raises
    [IndexError], and so does every pass of a loader over the dataset,
    shuffled or not. *)
Theorem short_labels_raise (dl : DataLoader) (draw : list nat) :
  (length (labels (dataset dl)) < length (features (dataset dl)))%nat ->
  draw ≡ₚ seq 0 (CustomDataset_len (dataset dl)) ->
  CustomDataset_len (dataset dl) = length (features (dataset dl)) /\
  (forall i, (length (labels (dataset dl)) <= i)%nat ->
     CustomDataset_getitem (dataset dl) i = Raise IndexError) /\
  DataLoader_iter dl draw = Raise IndexError.
Proof.
  intros Hshort Hp. split; [ reflexivity | ].
  assert (Hbad : forall i, (length (labels (dataset dl)) <= i)%nat ->
            CustomDataset_getitem (dataset dl) i = Raise IndexError).
  { intros i Hi. unfold CustomDataset_getitem.
    rewrite (lookup_ge_None_2 (labels (dataset dl)) i Hi).
    by destruct (features (dataset dl) !! i). }
  split; [ exact Hbad | ].
  unfold DataLoader_iter. apply mapM_result_raises.
  - apply Forall_forall. intros b _. apply mapM_result_settles.
    apply Forall_forall. intros i _. apply getitem_settles.
  - set (i0 := length (labels (dataset dl))).
    assert (Hin : i0 ∈ concat (batch_indices dl draw)).
    { unfold batch_indices. rewrite BatchSampler_concat. cbn [app].
      assert (Hs : i0 ∈ seq 0 (CustomDataset_len (dataset dl))).
      { apply elem_of_seq. unfold CustomDataset_len, i0. lia. }
      unfold sampler. destruct (shuffle dl); [ by rewrite Hp | exact Hs ]. }
    apply list_elem_of_In, in_concat in Hin. destruct Hin as (b & Hb & Hib).
    apply Exists_exists. exists b. split; [ by apply list_elem_of_In | ].
    apply mapM_result_raises.
    + apply Forall_forall. intros i _. apply getitem_settles.
    + apply Exists_exists. exists i0. split; [ by apply list_elem_of_In | ].
      apply Hbad. unfold i0. lia.
Qed.

Lemma short_labels_raise_witness :
  DataLoader_iter
    {| dataset := {| features := [[1%Q]; [2%Q]; [3%Q]]; labels := [10%Q; 20%Q] |};
       batch_size := 2; shuffle := false; num_workers := 0 |} [0; 1; 2]%nat
  = Raise IndexError.
Proof.
  apply (short_labels_raise
           {| dataset := {| features := [[1%Q]; [2%Q]; [3%Q]]; labels := [10%Q; 20%Q] |};
              batch_size := 2; shuffle := false; num_workers := 0 |} [0; 1; 2]%nat).
  - cbn. lia.
  - reflexivity.
Defined.

(** ** The search space and the lookup tables *)

Lemma drawn_from_space_inv (key : string) (c : Config) (cs : list PyValue) :
  search_space !! key = Some (Categorical cs) ->
  drawn_from_space key c -> exists v, c !! key = Some v /\ v ∈ cs.
Proof.
  intros Hs (cs' & v & Hs' & Hc & Hv). rewrite Hs in Hs'. injection Hs' as <-.
  by exists v.
Qed.

Lemma LightningModel_init_resolves (n : Z) (a o l : string) :
  0 <= n -> a ∈ activation_keys -> o ∈ optimizer_keys -> l ∈ loss_keys ->
  exists self,
    LightningModel_init n (Some (PyStr a)) (Some (PyStr o)) (Some (PyStr l)) = Ok self /\
    returns (configure_optimizers self) /\
    returns (get_loss_function self).
Proof.
  intros Hn Ha Ho Hl.
  destruct (LightningModel_init_known n a (Some (PyStr o)) (Some (PyStr l)) Hn Ha)
    as (A & self & _ & Hinit & Hself).
  assert (Hon : optimizer_name self = PyStr o) by (rewrite Hself; reflexivity).
  assert (Hln : loss_name self = PyStr l) by (rewrite Hself; reflexivity).
  assert (Hp : has_parameters (model self) = true) by (rewrite Hself; reflexivity).
  clear Hself. exists self. split; [ exact Hinit | ]. split.
  - unfold configure_optimizers.
    destruct (get_optimizer_known self o Hp Hon Ho) as [[_ ->] | [_ ->]]; apply returns_Ok.
  - destruct (get_loss_function_known self l Hln Hl) as (L & _ & ->). apply returns_Ok.
Qed.

(** X14. Every configuration the search can sample resolves: when the
    optimizer, the loss and the activation of a trial are among the
    categories the search space offers, the constructor returns a model and
    both the optimizer and the loss look-ups return; and the search space
    offers every key of the three tables. *)
Theorem sampled_configurations_resolve (c : Config) (n : Z) :
  (0 <= n ->
   drawn_from_space "optimizer" c ->
   drawn_from_space "loss_function" c ->
   drawn_from_space "activation" c ->
   exists a o l self,
     c !! "activation" = Some a /\ c !! "optimizer" = Some o /\
     c !! "loss_function" = Some l /\
     LightningModel_init n (Some a) (Some o) (Some l) = Ok self /\
     returns (configure_optimizers self) /\
     returns (get_loss_function self)) /\
  (forall k, k ∈ optimizer_keys ->
     exists cs, search_space !! "optimizer" = Some (Categorical cs) /\ PyStr k ∈ cs) /\
  (forall k, k ∈ loss_keys ->
     exists cs, search_space !! "loss_function" = Some (Categorical cs) /\ PyStr k ∈ cs) /\
  (forall k, k ∈ activation_keys ->
     exists cs, search_space !! "activation" = Some (Categorical cs) /\ PyStr k ∈ cs).
Proof.
  split; [ | split; [ | split ] ].
  - intros Hn Ho Hl Ha.
    destruct (drawn_from_space_inv "optimizer" c _ eq_refl Ho) as (o & Hco & Hio).
    destruct (drawn_from_space_inv "loss_function" c _ eq_refl Hl) as (l & Hcl & Hil).
    destruct (drawn_from_space_inv "activation" c _ eq_refl Ha) as (a & Hca & Hia).
    exists a, o, l.
    assert (Hres : exists a' o' l', a = PyStr a' /\ o = PyStr o' /\ l = PyStr l' /\
              a' ∈ activation_keys /\ o' ∈ optimizer_keys /\ l' ∈ loss_keys).
    { repeat (apply elem_of_cons in Hia; destruct Hia as [-> | Hia]);
        try (by apply elem_of_nil in Hia);
        repeat (apply elem_of_cons in Hio; destruct Hio as [-> | Hio]);
        try (by apply elem_of_nil in Hio);
        repeat (apply elem_of_cons in Hil; destruct Hil as [-> | Hil]);
        try (by apply elem_of_nil in Hil);
        (eexists _, _, _; do 3 (split; [ reflexivity | ]);
         unfold activation_keys, optimizer_keys, loss_keys; set_solver). }
    destruct Hres as (a' & o' & l' & -> & -> & -> & Ha' & Ho' & Hl').
    destruct (LightningModel_init_resolves n a' o' l' Hn Ha' Ho' Hl')
      as (self & Hinit & Hopt & Hloss).
    exists self. split; [ exact Hca | ]. split; [ exact Hco | ].
    split; [ exact Hcl | ]. split; [ exact Hinit | ]. split; [ exact Hopt | exact Hloss ].
  - intros k Hk. eexists. split; [ reflexivity | ].
    unfold optimizer_keys in Hk.
    repeat (apply elem_of_cons in Hk; destruct Hk as [-> | Hk]);
      [ apply list_elem_of_here
      | apply list_elem_of_further, list_elem_of_here
      | by apply elem_of_nil in Hk ].
  - intros k Hk. eexists. split; [ reflexivity | ].
    unfold loss_keys in Hk.
    repeat (apply elem_of_cons in Hk; destruct Hk as [-> | Hk]);
      [ apply list_elem_of_further, list_elem_of_here
      | do 2 apply list_elem_of_further; apply list_elem_of_here
      | apply list_elem_of_here
      | by apply elem_of_nil in Hk ].
  - intros k Hk. eexists. split; [ reflexivity | ].
    unfold activation_keys in Hk.
    repeat (apply elem_of_cons in Hk; destruct Hk as [-> | Hk]);
      [ apply list_elem_of_here
      | apply list_elem_of_further, list_elem_of_here
      | do 2 apply list_elem_of_further; apply list_elem_of_here
      | by apply elem_of_nil in Hk ].
Qed.

Lemma sampled_configurations_resolve_witness :
  exists a o l self,
    trial "AdamW" "SmoothL1Loss" "PReLU" 30 10 !! "activation" = Some a /\
    trial "AdamW" "SmoothL1Loss" "PReLU" 30 10 !! "optimizer" = Some o /\
    trial "AdamW" "SmoothL1Loss" "PReLU" 30 10 !! "loss_function" = Some l /\
    LightningModel_init 10 (Some a) (Some o) (Some l) = Ok self /\
    returns (configure_optimizers self) /\
    returns (get_loss_function self).
Proof.
  apply (sampled_configurations_resolve (trial "AdamW" "SmoothL1Loss" "PReLU" 30 10) 10).
  - lia.
  - eexists _, (PyStr "AdamW"). split; [ reflexivity | ]. split; [ reflexivity | ].
    apply list_elem_of_further, list_elem_of_here.
  - eexists _, (PyStr "SmoothL1Loss"). split; [ reflexivity | ]. split; [ reflexivity | ].
    do 2 apply list_elem_of_further. apply list_elem_of_here.
  - eexists _, (PyStr "PReLU"). split; [ reflexivity | ]. split; [ reflexivity | ].
    apply list_elem_of_further, list_elem_of_here.
Defined.

(** ** The whole run *)

(** X15. On a frame that preparation accepts (distinct column names, a
    column [perf], at least 1500 rows) the run gets through loading,
    subsampling and splitting and then ends in the driver, with the
    [TypeError] of the scheduler's construction: no data error is raised
    and no trial is started, whatever Ray would have done with the
    tuner. *)
Theorem run_fails_in_driver (permutation : Z -> nat -> list nat) (cpu_count : Z)
    (isatty : bool) (Tuner_fit : Tuner -> list Result) (df : DataFrame)
    (draw : list nat) :
  (forall seed n, permutation seed n ≡ₚ seq 0 n) ->
  NoDup (columns df) ->
  "perf" ∈ columns df ->
  length draw = 1500%nat ->
  Forall (fun i => (i < length (rows df))%nat) draw ->
  (1500 <= length (rows df))%nat ->
  returns (prepare permutation cpu_count (Ok df) draw) /\
  main permutation cpu_count isatty Tuner_fit (Ok df) draw = Raise TypeError.
Proof.
  intros Hperm _ Hin Hdraw Hrange Hrows.
  destruct (prepare_Ok permutation Hperm cpu_count df draw Hin Hdraw Hrange Hrows)
    as (i & X_train & X_test & y_train & y_test & _ & Hprep & _).
  split; [ rewrite Hprep; by eexists | ].
  unfold main. rewrite Hprep. reflexivity.
Qed.

Lemma run_fails_in_driver_witness :
  main (fun _ n => rev (seq 0 n)) 16 true (fun _ => [])
    (Ok {| columns := ["cpu"; "mem"; "perf"];
           rows := replicate 2000 [1%Q; 2%Q; 3%Q] |}) (seq 0 1500)
  = Raise TypeError.
Proof.
  apply (run_fails_in_driver (fun _ n => rev (seq 0 n)) 16 true (fun _ => [])
           {| columns := ["cpu"; "mem"; "perf"];
              rows := replicate 2000 [1%Q; 2%Q; 3%Q] |} (seq 0 1500)).
  - intros seed n. apply Permutation_sym, Permutation_rev.
  - cbn [columns]. repeat (apply NoDup_cons; split);
      [ | | | apply NoDup_nil_2 ];
      intros H; repeat (apply elem_of_cons in H; destruct H as [H | H]);
      try discriminate H; by apply elem_of_nil in H.
  - cbn [columns]. do 2 apply list_elem_of_further. apply list_elem_of_here.
  - apply length_seq.
  - cbn [rows]. rewrite length_replicate. apply Forall_forall.
    intros i Hi. apply elem_of_seq in Hi. lia.
  - cbn [rows]. rewrite length_replicate. lia.
Defined.
